(** * Account security state machine of [core_apps/user_auth/models.py]

    A shallow embedding of the OTP and account-lockout methods of the
    [User] model together with the [send_account_locked_email] notifier
    of [core_apps/user_auth/emails.py], and the properties of that
    state machine; then [generate_otp] of [core_apps/user_auth/utils.py]
    and the username generator and user manager of
    [core_apps/user_auth/managers.py].

    Conventions.
    - A [datetime] is an integer count of clock ticks since a fixed
      origin and a [timedelta] an integer count of ticks (Python's tick
      is the microsecond; the examples below count in seconds).
    - [timezone.now()] is read at most once per method call; the value
      read is the [now] argument of the embedded method.
    - The values of [django.conf.settings] are not part of the sources;
      they are taken as a parameter ([Settings]).
    - Methods run in a state-and-exception monad over a [World]: the
      in-memory instance [self] and the trace of external effects
      ([save()] calls with the row written, lockout e-mails).  A raised
      exception keeps the world as it is at the raise, as Python does.
    - [Model.save()] and the e-mail backend are framework code: [save]
      is modelled as recording the row, the notifier as recording the
      message (its own [try/except] swallows delivery failures). *)

From Stdlib Require Import ZArith Ascii String List Bool Lia.
Import ListNotations.
Local Open Scope string_scope.
Local Open Scope list_scope.
Local Open Scope Z_scope.

(** ** Data model *)

Definition datetime := Z.
Definition timedelta := Z.

(** [settings.OTP_EXPIRY_TIME], [settings.MAX_FAILED_LOGIN_ATTEMPTS],
    [settings.LOCKOUT_DURATION]. *)
Record Settings := mkSettings {
  OTP_EXPIRY_TIME : timedelta;
  MAX_FAILED_LOGIN_ATTEMPTS : Z;
  LOCKOUT_DURATION : timedelta
}.

(** [User.AccountStatus]. *)
Inductive AccountStatus := ACTIVE | LOCKED.

Definition AccountStatus_eqb (a b : AccountStatus) : bool :=
  match a, b with
  | ACTIVE, ACTIVE | LOCKED, LOCKED => true
  | _, _ => false
  end.

(** The fields of [User] the security methods read or write.  Nullable
    columns are [option]s; [otp] is nullable and may also hold the empty
    string ([EmptyString]), which is what [verify_otp] stores on
    success. *)
Record User := mkUser {
  email : string;
  account_status : AccountStatus;
  failed_login_attempts : Z;
  last_failed_login : option datetime;
  otp : option string;
  otp_expiry_time : option datetime
}.

(** Attribute assignments [self.f = v]. *)
Definition set_account_status (v : AccountStatus) (u : User) : User :=
  mkUser (email u) v (failed_login_attempts u) (last_failed_login u)
         (otp u) (otp_expiry_time u).

Definition set_failed_login_attempts (v : Z) (u : User) : User :=
  mkUser (email u) (account_status u) v (last_failed_login u)
         (otp u) (otp_expiry_time u).

Definition set_last_failed_login (v : option datetime) (u : User) : User :=
  mkUser (email u) (account_status u) (failed_login_attempts u) v
         (otp u) (otp_expiry_time u).

Definition set_otp_field (v : option string) (u : User) : User :=
  mkUser (email u) (account_status u) (failed_login_attempts u)
         (last_failed_login u) v (otp_expiry_time u).

Definition set_otp_expiry_time (v : option datetime) (u : User) : User :=
  mkUser (email u) (account_status u) (failed_login_attempts u)
         (last_failed_login u) (otp u) v.

(** A newly created record: the column defaults of the model. *)
Definition new_user (addr : string) : User :=
  mkUser addr ACTIVE 0 None None None.

(** ** Effects *)

(** What a method does to the outside: [self.save()] writes the current
    row, [send_account_locked_email(self)] sends one message about the
    given instance. *)
Inductive Effect :=
| Saved (row : User)
| AccountLockedEmail (about : User).

(** The instance and the effects so far, most recent first. *)
Record World := mkWorld {
  self : User;
  effects : list Effect
}.

Definition fresh (addr : string) : World := mkWorld (new_user addr) [].

Inductive Exception := TypeError.

Inductive Result (A : Type) :=
| Return (a : A)
| Raise (e : Exception).
Arguments Return {A} a.
Arguments Raise {A} e.

(** State and exception monad. *)
Definition M (A : Type) := World -> Result A * World.

Definition ret {A} (a : A) : M A := fun w => (Return a, w).

Definition bind {A B} (m : M A) (k : A -> M B) : M B :=
  fun w =>
    match m w with
    | (Return a, w') => k a w'
    | (Raise e, w') => (Raise e, w')
    end.

Definition raise {A} (e : Exception) : M A := fun w => (Raise e, w).

Declare Scope py_scope.
Delimit Scope py_scope with py.
Notation "x <- m ;; k" := (bind m (fun x => k))
  (at level 61, m at next level, right associativity) : py_scope.
Notation "m ;; k" := (bind m (fun _ => k))
  (at level 61, right associativity) : py_scope.
Local Open Scope py_scope.

Definition get_self : M User := fun w => (Return (self w), w).

(** [self.f = v], through one of the setters above. *)
Definition assign (f : User -> User) : M unit :=
  fun w => (Return tt, mkWorld (f (self w)) (effects w)).

Definition emit (e : User -> Effect) : M unit :=
  fun w => (Return tt, mkWorld (self w) (e (self w) :: effects w)).

(** [self.save()]. *)
Definition save : M unit := emit Saved.

(** [send_account_locked_email(self)] of [emails.py]. *)
Definition send_account_locked_email : M unit := emit AccountLockedEmail.

(** ** Python operators used by the methods *)

(** [self.otp == otp] with a [str] argument: [None] equals no string. *)
Definition otp_eq (stored : option string) (candidate : string) : bool :=
  match stored with
  | Some s => String.eqb s candidate
  | None => false
  end.

(** [a > b] where [a] is a nullable datetime column and [b] a datetime:
    ordering [None] against a datetime raises [TypeError]. *)
Definition datetime_gt (a : option datetime) (b : datetime) : M bool :=
  match a with
  | Some x => ret (b <? x)
  | None => raise TypeError
  end.

(** ** The methods of [User] *)

Section Methods.

Variable settings : Settings.

Definition set_otp (code : string) (now : datetime) : M unit :=
  assign (set_otp_field (Some code));;
  assign (set_otp_expiry_time (Some (now + OTP_EXPIRY_TIME settings)));;
  save.

Definition verify_otp (candidate : string) (now : datetime) : M bool :=
  u <- get_self;;
  if otp_eq (otp u) candidate then
    valid <- datetime_gt (otp_expiry_time u) now;;
    if (valid : bool) then
      assign (set_otp_field (Some EmptyString));;
      assign (set_otp_expiry_time None);;
      save;;
      ret true
    else ret false
  else ret false.

Definition handle_failed_login_attempts (now : datetime) : M unit :=
  u <- get_self;;
  assign (set_failed_login_attempts (failed_login_attempts u + 1));;
  assign (set_last_failed_login (Some now));;
  u <- get_self;;
  (if MAX_FAILED_LOGIN_ATTEMPTS settings <=? failed_login_attempts u then
     assign (set_account_status LOCKED);;
     save;;
     send_account_locked_email
   else ret tt);;
  save.

Definition reset_failed_login_attempts : M unit :=
  assign (set_failed_login_attempts 0);;
  assign (set_last_failed_login None);;
  assign (set_account_status ACTIVE);;
  save.

Definition unlock_account : M unit :=
  u <- get_self;;
  if AccountStatus_eqb (account_status u) LOCKED then
    assign (set_account_status ACTIVE);;
    assign (set_failed_login_attempts 0);;
    assign (set_last_failed_login None);;
    save
  else ret tt.

(** The test [self.last_failed_login and (now - self.last_failed_login)
    > settings.LOCKOUT_DURATION]: a datetime is truthy, [None] is not. *)
Definition lockout_expired (last : option datetime) (now : datetime) : bool :=
  match last with
  | Some t => LOCKOUT_DURATION settings <? now - t
  | None => false
  end.

Definition is_locked_out (now : datetime) : M bool :=
  u <- get_self;;
  if AccountStatus_eqb (account_status u) LOCKED then
    if lockout_expired (last_failed_login u) now then
      unlock_account;;
      ret false
    else ret true
  else ret false.

(** ** Executions *)

(** One call of a method by the surrounding authentication flow. *)
Inductive Call :=
| CallSetOtp (code : string)
| CallVerifyOtp (candidate : string)
| CallHandleFailedLoginAttempts
| CallResetFailedLoginAttempts
| CallUnlockAccount
| CallIsLockedOut.

(** The world after a call made at time [now]; the value returned or
    the exception raised goes to the caller and is dropped here. *)
Definition exec (c : Call) (now : datetime) (w : World) : World :=
  match c with
  | CallSetOtp code => snd (set_otp code now w)
  | CallVerifyOtp candidate => snd (verify_otp candidate now w)
  | CallHandleFailedLoginAttempts => snd (handle_failed_login_attempts now w)
  | CallResetFailedLoginAttempts => snd (reset_failed_login_attempts w)
  | CallUnlockAccount => snd (unlock_account w)
  | CallIsLockedOut => snd (is_locked_out now w)
  end.

(** A sequence of calls, each with the clock reading at the call. *)
Fixpoint run (calls : list (Call * datetime)) (w : World) : World :=
  match calls with
  | [] => w
  | (c, now) :: rest => run rest (exec c now w)
  end.

End Methods.

(** ** Observations on a world *)

Definition is_account_locked_email (e : Effect) : bool :=
  match e with
  | AccountLockedEmail _ => true
  | Saved _ => false
  end.

(** How many times [send_account_locked_email] has been invoked. *)
Definition notifications (w : World) : nat :=
  length (filter is_account_locked_email (effects w)).

(** The row most recently written by [save()], if any. *)
Fixpoint last_saved (l : list Effect) : option User :=
  match l with
  | [] => None
  | Saved row :: _ => Some row
  | AccountLockedEmail _ :: rest => last_saved rest
  end.

Definition persisted (w : World) : option User := last_saved (effects w).

(** The instance after a successful [verify_otp]. *)
Definition consume_otp (u : User) : User :=
  set_otp_expiry_time None (set_otp_field (Some EmptyString) u).

(** [times] consecutive calls of [handle_failed_login_attempts]. *)
Definition failures (times : list datetime) : list (Call * datetime) :=
  map (fun t => (CallHandleFailedLoginAttempts, t)) times.

(** The clock reading of the last of the calls [times]. *)
Definition last_time (times : list datetime) : option datetime :=
  last (map Some times) None.

(** A call of [set_otp] is given a non-empty code. *)
Definition nonempty_code (c : Call) : bool :=
  match c with
  | CallSetOtp code => negb (String.eqb code EmptyString)
  | _ => true
  end.

Definition nonempty_codes (calls : list (Call * datetime)) : bool :=
  forallb (fun cn => nonempty_code (fst cn)) calls.

Section Counting.

Variable settings : Settings.

(** Whether the call takes [account_status] from ACTIVE to LOCKED. *)
Definition locks (c : Call) (now : datetime) (w : World) : bool :=
  AccountStatus_eqb (account_status (self w)) ACTIVE
  && AccountStatus_eqb (account_status (self (exec settings c now w))) LOCKED.

(** Number of ACTIVE-to-LOCKED transitions along an execution. *)
Fixpoint lock_transitions (calls : list (Call * datetime)) (w : World) : nat :=
  match calls with
  | [] => O
  | (c, now) :: rest =>
      ((if locks c now w then 1 else 0)
       + lock_transitions rest (exec settings c now w))%nat
  end.

(** Whether the call is a [handle_failed_login_attempts] whose
    incremented counter is at or above the threshold. *)
Definition at_threshold (c : Call) (w : World) : bool :=
  match c with
  | CallHandleFailedLoginAttempts =>
      MAX_FAILED_LOGIN_ATTEMPTS settings <=? failed_login_attempts (self w) + 1
  | _ => false
  end.

Fixpoint threshold_calls (calls : list (Call * datetime)) (w : World) : nat :=
  match calls with
  | [] => O
  | (c, now) :: rest =>
      ((if at_threshold c w then 1 else 0)
       + threshold_calls rest (exec settings c now w))%nat
  end.

End Counting.

(** ** Example configuration and executions *)

(** OTP lifetime 300 s, lock at the third failure, lock for 1800 s. *)
Definition example_settings : Settings := mkSettings 300 3 1800.

Definition example_address : string := "student@school.example".

(** OTP "483920" issued at time 0. *)
Definition otp_issued : World :=
  snd (set_otp example_settings "483920" 0 (fresh example_address)).

(** The same OTP verified at time 299. *)
Definition otp_consumed : World :=
  snd (verify_otp "483920" 299 otp_issued).

(** One failed login at time 10. *)
Definition one_failure : World :=
  run example_settings (failures [10]) (fresh example_address).

(** Three failed logins: the account is locked at time 30. *)
Definition three_failures : World :=
  run example_settings (failures [10; 20; 30]) (fresh example_address).

(** ** Invariants of the record *)

(** [otp_expiry_time] is set exactly when [otp] holds a non-empty code
    (a consumed OTP is the empty string). *)
Definition otp_pending_invariant (u : User) : Prop :=
  otp_expiry_time u <> None <-> exists code, otp u = Some code /\ code <> EmptyString.

(** A LOCKED record carries the time of its last failed login. *)
Definition locked_timestamp_invariant (u : User) : Prop :=
  account_status u = LOCKED -> last_failed_login u <> None.

(** Four failed logins, one more than the threshold of the example. *)
Definition four_failures : list (Call * datetime) :=
  failures [10; 20; 30; 40].

(** An OTP issued, refused once for a wrong code, then consumed. *)
Definition otp_session : list (Call * datetime) :=
  [(CallSetOtp "483920", 0); (CallVerifyOtp "000000", 100);
   (CallVerifyOtp "483920", 299); (CallIsLockedOut, 300)].

(** ** Further observations on executions *)

(** The two OTP methods, as opposed to the four lockout methods. *)
Definition is_otp_call (c : Call) : bool :=
  match c with
  | CallSetOtp _ | CallVerifyOtp _ => true
  | _ => false
  end.

Definition otp_calls_only (calls : list (Call * datetime)) : bool :=
  forallb (fun cn => is_otp_call (fst cn)) calls.

Definition lockout_calls_only (calls : list (Call * datetime)) : bool :=
  forallb (fun cn => negb (is_otp_call (fst cn))) calls.

(** Every lockout e-mail in a trace (most recent first) is about a
    LOCKED instance at or above the threshold whose row was written by
    the [save()] just before the e-mail. *)
Fixpoint emails_follow_save (settings : Settings) (l : list Effect) : Prop :=
  match l with
  | [] => True
  | Saved _ :: older => emails_follow_save settings older
  | AccountLockedEmail u :: older =>
      account_status u = LOCKED /\
      MAX_FAILED_LOGIN_ATTEMPTS settings <= failed_login_attempts u /\
      (exists before, older = Saved u :: before) /\
      emails_follow_save settings older
  end.

(** ** [core_apps/user_auth/utils.py] and [core_apps/user_auth/managers.py]

    A [str] is a [string] of ASCII characters.  The module [random] is
    modelled by an explicit source of draws: the [i]-th element chosen
    by [random.choices(population, k=k)] is [population[d i mod n]]
    where [d i] is the [i]-th draw and [n = len(population)]; a
    non-positive [k] gives the empty list.  Both call sites pass a
    non-empty literal population. *)

Definition RandomSource := nat -> nat.

(** [string.digits] and [string.ascii_uppercase]. *)
Definition digits : list ascii := list_ascii_of_string "0123456789".

Definition ascii_uppercase : list ascii :=
  list_ascii_of_string "ABCDEFGHIJKLMNOPQRSTUVWXYZ".

Definition choices (rnd : RandomSource) (population : list ascii) (k : Z)
  : list ascii :=
  map (fun i => nth (Nat.modulo (rnd i) (List.length population)) population "0"%char)
      (seq 0 (Z.to_nat k)).

(** [generate_otp(length=6)] of [utils.py]. *)
Definition generate_otp (rnd : RandomSource) (length : Z) : string :=
  string_of_list_ascii (choices rnd digits length).

(** [str.isspace] on an ASCII character: TAB, LF, VT, FF, CR, the four
    separators FS, GS, RS, US, and the space. *)
Definition isspace (c : ascii) : bool :=
  let n := nat_of_ascii c in
  (Nat.leb 9 n && Nat.leb n 13) || (Nat.leb 28 n && Nat.leb n 32).

(** The word being read, kept reversed, once it ends. *)
Definition flush (cur : list ascii) : list string :=
  match cur with
  | [] => []
  | _ :: _ => [string_of_list_ascii (rev cur)]
  end.

Fixpoint split_from (s : string) (cur : list ascii) : list string :=
  match s with
  | EmptyString => flush cur
  | String c rest =>
      if isspace c then flush cur ++ split_from rest []
      else split_from rest (c :: cur)
  end.

(** [s.split()]: the maximal runs of non-whitespace characters. *)
Definition split (s : string) : list string := split_from s [].

Definition upper_char (c : ascii) : ascii :=
  let n := nat_of_ascii c in
  if Nat.leb 97 n && Nat.leb n 122 then ascii_of_nat (n - 32) else c.

(** [s.upper()] on an ASCII string. *)
Fixpoint upper (s : string) : string :=
  match s with
  | EmptyString => EmptyString
  | String c rest => String (upper_char c) (upper rest)
  end.

(** Exceptions of the manager module; [OtherException] stands for what
    the model constructor or the database may raise. *)
Inductive ManagerException :=
| AttributeError
| IndexError
| ValueError (message : string)
| ValidationError (code : string)
| OtherException (name : string).

Inductive Outcome (A : Type) :=
| Returns (a : A)
| Raises (e : ManagerException).
Arguments Returns {A} a.
Arguments Raises {A} e.

Definition and_then {A B} (m : Outcome A) (k : A -> Outcome B) : Outcome B :=
  match m with
  | Returns a => k a
  | Raises e => Raises e
  end.

(** [[word[0] for word in words]]: indexing an empty word raises
    [IndexError]. *)
Fixpoint initials (words : list string) : Outcome (list ascii) :=
  match words with
  | [] => Returns []
  | EmptyString :: _ => Raises IndexError
  | String c _ :: rest => and_then (initials rest) (fun l => Returns (c :: l))
  end.

(** [generate_username()] of [managers.py]; [school_name] is the value
    of [getenv("SCHOOL_NAME")], [None] when the variable is unset (then
    [school_name.split()] raises [AttributeError]). *)
Definition generate_username (school_name : option string) (rnd : RandomSource)
  : Outcome string :=
  match school_name with
  | None => Raises AttributeError
  | Some name =>
      and_then (initials (split name)) (fun firsts =>
        let prefix := upper (string_of_list_ascii firsts) in
        let remaining_length := 16 - Z.of_nat (String.length prefix) - 1 in
        let random_chars :=
          string_of_list_ascii
            (choices rnd (ascii_uppercase ++ digits) remaining_length) in
        Returns (prefix ++ "--" ++ random_chars)%string)
  end.

(** Values of keyword arguments, and [**extra_fields] as a dictionary
    in insertion order. *)
Inductive PyValue :=
| PyNone
| PyBool (b : bool)
| PyInt (z : Z)
| PyStr (s : string).

Definition kwargs := list (string * PyValue).

(** [d.get(k)]. *)
Fixpoint dict_get (k : string) (d : kwargs) : option PyValue :=
  match d with
  | [] => None
  | (k', v) :: rest => if String.eqb k' k then Some v else dict_get k rest
  end.

(** [d.setdefault(k, v)]. *)
Definition setdefault (k : string) (v : PyValue) (d : kwargs) : kwargs :=
  match dict_get k d with
  | Some _ => d
  | None => d ++ [(k, v)]
  end.

(** [d.get(k) is True]: only the boolean [True] itself. *)
Definition is_True (v : option PyValue) : bool :=
  match v with
  | Some (PyBool true) => true
  | _ => false
  end.

Section Manager.

(** The environment, the random draws, and the framework functions the
    manager calls: [normalize_email], Django's [validate_email] (true
    when it accepts), [make_password], and [save_user username email
    extra_fields password] for the three statements
    [user = self.model(username=username, email=email, **extra_fields)],
    [user.password = ...] and [user.save(using=self._db)]. *)
Variable school_name : option string.
Variable rnd : RandomSource.
Variable normalize_email : string -> string.
Variable validate_email : string -> bool.
Variable make_password : string -> string.
Variable NewUser : Type.
Variable save_user : string -> string -> kwargs -> string -> Outcome NewUser.

Definition validate_email_address (email : string) : Outcome unit :=
  if validate_email email then Returns tt
  else Raises (ValidationError "invalid_email_address").

Definition _create_user (email : string) (password : option string)
  (extra_fields : kwargs) : Outcome NewUser :=
  if String.eqb email EmptyString
  then Raises (ValueError "The given email must be provided")
  else
    match password with
    | None | Some EmptyString => Raises (ValueError "A password must be provided")
    | Some (String _ _ as pw) =>
        and_then (generate_username school_name rnd) (fun username =>
          let email := normalize_email email in
          and_then (validate_email_address email) (fun _ =>
            save_user username email extra_fields (make_password pw)))
    end.

Definition create_user (email : string) (password : option string)
  (extra_fields : kwargs) : Outcome NewUser :=
  let extra_fields := setdefault "is_superuser" (PyBool false) extra_fields in
  let extra_fields := setdefault "is_staff" (PyBool false) extra_fields in
  _create_user email password extra_fields.

Definition create_superuser (email : string) (password : option string)
  (extra_fields : kwargs) : Outcome NewUser :=
  let extra_fields := setdefault "is_staff" (PyBool true) extra_fields in
  let extra_fields := setdefault "is_superuser" (PyBool true) extra_fields in
  if negb (is_True (dict_get "is_staff" extra_fields))
  then Raises (ValueError "Superuser must have is_staff=True.")
  else if negb (is_True (dict_get "is_superuser" extra_fields))
  then Raises (ValueError "Superuser must have is_superuser=True.")
  else _create_user email password extra_fields.

End Manager.

(** Example collaborators for the manager: every address with an [@]
    passes validation, and saving returns the four arguments. *)
Definition example_validate_email (email : string) : bool :=
  existsb (Ascii.eqb "@"%char) (list_ascii_of_string email).

Definition example_save_user (username email : string) (extra_fields : kwargs)
  (password : string) : Outcome (string * string * kwargs * string) :=
  Returns (username, email, extra_fields, password).

Definition example_draws : RandomSource := fun i => (7 * i + 3)%nat.

(** Position of the first occurrence of [c] in [population]. *)
Fixpoint index_of (c : ascii) (population : list ascii) : nat :=
  match population with
  | [] => O
  | x :: rest => if Ascii.eqb x c then O else S (index_of c rest)
  end.

(** The source of draws under which [choices] picks the characters of
    [target] out of [population]. *)
Definition draws_for (population target : list ascii) : RandomSource :=
  fun i => index_of (nth i target "0"%char) population.

(** [s.isascii()]: every character is below 128.  On such strings
    [split] and [upper] above are Python's [str.split()] and
    [str.upper()]; outside them they are not ([str.upper()] may change
    the length, [str.split()] knows further whitespace). *)
Definition isascii (s : string) : bool :=
  forallb (fun c => Nat.ltb (nat_of_ascii c) 128) (list_ascii_of_string s).

(** [c] is one of the letters [a] to [z]. *)
Definition islower (c : ascii) : bool :=
  Nat.leb 97 (nat_of_ascii c) && Nat.leb (nat_of_ascii c) 122.

(** ** Proof support *)

Ltac unfold_methods :=
  unfold exec, is_locked_out, unlock_account, reset_failed_login_attempts,
    handle_failed_login_attempts, verify_otp, set_otp, lockout_expired,
    datetime_gt, send_account_locked_email, save, emit, assign, get_self,
    raise, bind, ret in *.

Lemma AccountStatus_eqb_eq a b : AccountStatus_eqb a b = true <-> a = b.
Proof. destruct a, b; simpl; split; congruence. Qed.

Lemma otp_eq_true stored candidate :
  otp_eq stored candidate = true <-> stored = Some candidate.
Proof.
  destruct stored as [s|]; simpl.
  - rewrite String.eqb_eq. split; congruence.
  - split; discriminate.
Qed.

(** ** [verify_otp] *)

(** The three ways a call of [verify_otp] can end. *)
Lemma verify_otp_unfold candidate now w :
  verify_otp candidate now w =
  if otp_eq (otp (self w)) candidate then
    match otp_expiry_time (self w) with
    | Some e =>
        if now <? e
        then (Return true,
              mkWorld (consume_otp (self w))
                      (Saved (consume_otp (self w)) :: effects w))
        else (Return false, w)
    | None => (Raise TypeError, w)
    end
  else (Return false, w).
Proof.
  unfold_methods. simpl.
  destruct (otp_eq (otp (self w)) candidate); [|reflexivity].
  destruct (otp_expiry_time (self w)) as [e|]; [|reflexivity].
  simpl. destruct (now <? e); reflexivity.
Qed.

(** C2, as amended: [verify_otp candidate] returns true exactly when the
    candidate equals the stored [otp] and the clock is strictly before
    [otp_expiry_time]. *)
Theorem verify_otp_true_iff candidate now w :
  fst (verify_otp candidate now w) = Return true <->
  otp (self w) = Some candidate /\
  exists e, otp_expiry_time (self w) = Some e /\ now < e.
Proof.
  rewrite verify_otp_unfold, <- otp_eq_true.
  destruct (otp_eq (otp (self w)) candidate).
  - destruct (otp_expiry_time (self w)) as [e|].
    + destruct (Z.ltb_spec now e); simpl; split.
      * intros _. split; [reflexivity|]. exists e. split; [reflexivity|lia].
      * reflexivity.
      * discriminate.
      * intros [_ [e' [He' Hlt]]]. injection He' as <-. lia.
    + simpl. split; [discriminate|].
      intros [_ [e [He _]]]. discriminate He.
  - simpl. split; [discriminate|]. intros [H _]. discriminate H.
Qed.

(** C2 as stated fails at the expiry instant: the OTP issued at 0 with a
    lifetime of 300 is refused at time 300, although the candidate
    matches and [now <= otp_expiry_time]. *)
Lemma verify_otp_at_expiry_counterexample :
  ~ (fst (verify_otp "483920" 300 otp_issued) = Return true <->
     otp (self otp_issued) = Some "483920" /\
     exists e, otp_expiry_time (self otp_issued) = Some e /\ 300 <= e).
Proof.
  intros [_ H].
  assert (Hrhs : otp (self otp_issued) = Some "483920" /\
                 exists e, otp_expiry_time (self otp_issued) = Some e /\ 300 <= e).
  { split; [reflexivity|]. exists 300. split; [reflexivity|lia]. }
  specialize (H Hrhs). vm_compute in H. discriminate H.
Qed.

(** C3 fails on the code: once an OTP has been consumed the stored
    [otp] is the empty string and [otp_expiry_time] is [None], and
    [verify_otp] with the empty string then raises [TypeError] instead of returning. *)
Lemma verify_otp_raises_after_consumption :
  fst (verify_otp "483920" 299 otp_issued) = Return true /\
  verify_otp EmptyString 300 otp_consumed = (Raise TypeError, otp_consumed).
Proof. split; reflexivity. Qed.

(** A candidate different from the stored value never raises, and a
    pending OTP (expiry set) never raises either: the exception needs a
    matching candidate and a missing expiry. *)
Lemma verify_otp_raises_iff candidate now w :
  fst (verify_otp candidate now w) = Raise TypeError <->
  otp (self w) = Some candidate /\ otp_expiry_time (self w) = None.
Proof.
  rewrite verify_otp_unfold, <- otp_eq_true.
  destruct (otp_eq (otp (self w)) candidate).
  - destruct (otp_expiry_time (self w)) as [e|].
    + destruct (now <? e); simpl; split; try discriminate;
        intros [_ H]; discriminate H.
    + simpl. split; auto.
  - simpl. split; [discriminate|]. intros [H _]. discriminate H.
Qed.

(** Within its lifetime an issued OTP is accepted. *)
Lemma verify_otp_after_set_otp settings code t0 t1 w :
  t1 < t0 + OTP_EXPIRY_TIME settings ->
  fst (verify_otp code t1 (snd (set_otp settings code t0 w))) = Return true.
Proof.
  intros Hlt. apply verify_otp_true_iff. simpl.
  split; [reflexivity|]. eexists. split; [reflexivity|exact Hlt].
Qed.

(** C4: after [set_otp] with a non-empty code and a successful
    [verify_otp] of that code, a second [verify_otp] with the same code
    returns false, whenever it is made. *)
Theorem verify_otp_no_replay settings code t0 t1 t2 w :
  code <> EmptyString ->
  fst (verify_otp code t1 (snd (set_otp settings code t0 w))) = Return true ->
  fst (verify_otp code t2
         (snd (verify_otp code t1 (snd (set_otp settings code t0 w)))))
  = Return false.
Proof.
  intros Hne Hok.
  set (w1 := snd (set_otp settings code t0 w)) in *.
  rewrite (verify_otp_unfold code t1 w1) in *.
  destruct (otp_eq (otp (self w1)) code); [|discriminate Hok].
  destruct (otp_expiry_time (self w1)) as [e|]; [|discriminate Hok].
  destruct (t1 <? e); [|discriminate Hok].
  clear Hok. subst w1. rewrite verify_otp_unfold. simpl.
  destruct code as [|c rest]; [|reflexivity].
  exfalso. apply Hne. reflexivity.
Qed.

Lemma verify_otp_no_replay_witness :
  "483920" <> EmptyString /\
  fst (verify_otp "483920" 299
         (snd (set_otp example_settings "483920" 0 (fresh example_address))))
  = Return true /\
  fst (verify_otp "483920" 299
         (snd (verify_otp "483920" 299
            (snd (set_otp example_settings "483920" 0
                    (fresh example_address))))))
  = Return false.
Proof.
  split; [discriminate|]. split; [reflexivity|].
  apply (verify_otp_no_replay example_settings "483920" 0 299 299
           (fresh example_address)).
  - discriminate.
  - reflexivity.
Defined.

(** C8: a call of [verify_otp] that returns false leaves the instance
    as it was, field by field, and has no outside effect. *)
Theorem verify_otp_false_unchanged candidate now w :
  fst (verify_otp candidate now w) = Return false ->
  snd (verify_otp candidate now w) = w /\
  otp (self (snd (verify_otp candidate now w))) = otp (self w) /\
  otp_expiry_time (self (snd (verify_otp candidate now w)))
  = otp_expiry_time (self w) /\
  failed_login_attempts (self (snd (verify_otp candidate now w)))
  = failed_login_attempts (self w) /\
  last_failed_login (self (snd (verify_otp candidate now w)))
  = last_failed_login (self w) /\
  account_status (self (snd (verify_otp candidate now w)))
  = account_status (self w).
Proof.
  intros H.
  assert (E : snd (verify_otp candidate now w) = w).
  { rewrite verify_otp_unfold in *.
    destruct (otp_eq (otp (self w)) candidate); [|reflexivity].
    destruct (otp_expiry_time (self w)) as [e|]; [|reflexivity].
    destruct (now <? e); [discriminate H|reflexivity]. }
  rewrite E. repeat split; reflexivity.
Qed.

Lemma verify_otp_false_unchanged_witness :
  fst (verify_otp "000000" 100 otp_issued) = Return false /\
  snd (verify_otp "000000" 100 otp_issued) = otp_issued /\
  fst (verify_otp "483920" 301 otp_issued) = Return false /\
  snd (verify_otp "483920" 301 otp_issued) = otp_issued.
Proof.
  split; [reflexivity|].
  split; [apply (verify_otp_false_unchanged "000000" 100 otp_issued);
          reflexivity|].
  split; [reflexivity|].
  apply (verify_otp_false_unchanged "483920" 301 otp_issued). reflexivity.
Defined.

(** ** Failed logins and lockout *)

(** The instance after the two unconditional assignments of
    [handle_failed_login_attempts]. *)
Lemma handle_failed_login_attempts_unfold settings now w :
  handle_failed_login_attempts settings now w =
  let u := set_last_failed_login (Some now)
             (set_failed_login_attempts (failed_login_attempts (self w) + 1)
                (self w)) in
  if MAX_FAILED_LOGIN_ATTEMPTS settings <=? failed_login_attempts (self w) + 1
  then (Return tt,
        mkWorld (set_account_status LOCKED u)
          (Saved (set_account_status LOCKED u)
           :: AccountLockedEmail (set_account_status LOCKED u)
           :: Saved (set_account_status LOCKED u) :: effects w))
  else (Return tt, mkWorld u (Saved u :: effects w)).
Proof.
  unfold_methods. simpl.
  destruct (MAX_FAILED_LOGIN_ATTEMPTS settings
            <=? failed_login_attempts (self w) + 1); reflexivity.
Qed.

(** One call: it returns, the counter goes up by one, the timestamp is
    the clock reading, the status is decided by the threshold, and the
    row written last is the instance as the call leaves it. *)
Lemma handle_failed_login_attempts_step settings now w :
  let w' := snd (handle_failed_login_attempts settings now w) in
  fst (handle_failed_login_attempts settings now w) = Return tt /\
  failed_login_attempts (self w') = failed_login_attempts (self w) + 1 /\
  last_failed_login (self w') = Some now /\
  persisted w' = Some (self w') /\
  (MAX_FAILED_LOGIN_ATTEMPTS settings <= failed_login_attempts (self w) + 1 ->
   account_status (self w') = LOCKED) /\
  (failed_login_attempts (self w) + 1 < MAX_FAILED_LOGIN_ATTEMPTS settings ->
   account_status (self w') = account_status (self w)).
Proof.
  rewrite handle_failed_login_attempts_unfold. cbv zeta.
  destruct (Z.leb_spec (MAX_FAILED_LOGIN_ATTEMPTS settings)
              (failed_login_attempts (self w) + 1));
    simpl; repeat split; try reflexivity; intros; lia.
Qed.

Lemma run_app settings calls1 calls2 w :
  run settings (calls1 ++ calls2) w
  = run settings calls2 (run settings calls1 w).
Proof.
  revert w. induction calls1 as [|[c now] rest IH]; intros w; simpl.
  - reflexivity.
  - apply IH.
Qed.

Lemma run_snoc settings calls c now w :
  run settings (calls ++ [(c, now)]) w = exec settings c now (run settings calls w).
Proof. rewrite run_app. reflexivity. Qed.

Lemma failures_snoc times t :
  failures (times ++ [t]) = failures times ++ [(CallHandleFailedLoginAttempts, t)].
Proof. unfold failures. rewrite map_app. reflexivity. Qed.

Lemma last_time_snoc times t : last_time (times ++ [t]) = Some t.
Proof. unfold last_time. rewrite map_app. simpl. apply last_last. Qed.

(** C5: after [n] consecutive calls of [handle_failed_login_attempts]
    on a new record the counter is [n]; the status is ACTIVE while [n]
    is below the threshold and LOCKED from the threshold on; the
    timestamp is the clock reading of the last call; and the row written
    last is the instance with its updated counter, locked or not. *)
Theorem handle_failed_login_attempts_counts settings addr times :
  let w := run settings (failures times) (fresh addr) in
  let n := Z.of_nat (length times) in
  failed_login_attempts (self w) = n /\
  (n < MAX_FAILED_LOGIN_ATTEMPTS settings -> account_status (self w) = ACTIVE) /\
  (0 < n -> MAX_FAILED_LOGIN_ATTEMPTS settings <= n ->
   account_status (self w) = LOCKED) /\
  last_failed_login (self w) = last_time times /\
  (0 < n -> persisted w = Some (self w)).
Proof.
  induction times as [|t times IH] using rev_ind.
  - simpl. repeat split; try reflexivity; intros; lia.
  - cbv zeta in *. destruct IH as (Hn & Hactive & _ & _ & _).
    rewrite failures_snoc, run_app, length_app, last_time_snoc. simpl.
    set (w := run settings (failures times) (fresh addr)) in *.
    destruct (handle_failed_login_attempts_step settings t w)
      as (_ & Hcount & Hlast & Hsaved & Hlock & Hkeep).
    cbv zeta in *.
    repeat split.
    + rewrite Hcount, Hn. lia.
    + intros Hlt. rewrite Hkeep by lia. apply Hactive. lia.
    + intros _ Hge. apply Hlock. lia.
    + exact Hlast.
    + intros _. exact Hsaved.
Qed.

Lemma handle_failed_login_attempts_counts_witness :
  let w := run example_settings (failures [10; 20; 30; 40])
             (fresh example_address) in
  failed_login_attempts (self w) = 4 /\
  account_status (self w) = LOCKED /\
  last_failed_login (self w) = Some 40 /\
  persisted w = Some (self w).
Proof.
  pose proof (handle_failed_login_attempts_counts example_settings
                example_address [10; 20; 30; 40])
    as (Hn & _ & Hlocked & Hlast & Hsaved).
  cbv zeta. split; [exact Hn|].
  split; [apply Hlocked; simpl; lia|].
  split; [exact Hlast|]. apply Hsaved. simpl. lia.
Defined.

(** ** [reset_failed_login_attempts], [unlock_account], [is_locked_out] *)

Lemma unlock_account_unfold w :
  unlock_account w =
  match account_status (self w) with
  | LOCKED =>
      let u := set_last_failed_login None
                 (set_failed_login_attempts 0
                    (set_account_status ACTIVE (self w))) in
      (Return tt, mkWorld u (Saved u :: effects w))
  | ACTIVE => (Return tt, w)
  end.
Proof.
  unfold_methods. simpl.
  destruct (account_status (self w)); reflexivity.
Qed.

Lemma is_locked_out_unfold settings now w :
  is_locked_out settings now w =
  match account_status (self w) with
  | LOCKED =>
      if lockout_expired settings (last_failed_login (self w)) now
      then (Return false, snd (unlock_account w))
      else (Return true, w)
  | ACTIVE => (Return false, w)
  end.
Proof.
  unfold is_locked_out, bind, get_self, ret.
  destruct (account_status (self w)) eqn:Hstatus; simpl; [reflexivity|].
  destruct (lockout_expired settings (last_failed_login (self w)) now);
    [|reflexivity].
  rewrite unlock_account_unfold, Hstatus. reflexivity.
Qed.

(** C7, as amended: [reset_failed_login_attempts] on any record, and
    [unlock_account] on a LOCKED record, leave the counter at 0, the
    timestamp cleared and the status ACTIVE, and write the row;
    [unlock_account] on an ACTIVE record returns without changing a
    field, writing a row or sending a message. *)
Theorem reset_and_unlock_account_spec w :
  (let w' := snd (reset_failed_login_attempts w) in
   failed_login_attempts (self w') = 0 /\
   last_failed_login (self w') = None /\
   account_status (self w') = ACTIVE /\
   effects w' = Saved (self w') :: effects w) /\
  (account_status (self w) = LOCKED ->
   let w' := snd (unlock_account w) in
   failed_login_attempts (self w') = 0 /\
   last_failed_login (self w') = None /\
   account_status (self w') = ACTIVE /\
   effects w' = Saved (self w') :: effects w) /\
  (account_status (self w) = ACTIVE ->
   unlock_account w = (Return tt, w)).
Proof.
  split; [|split].
  - simpl. repeat split; reflexivity.
  - intros Hlocked. rewrite unlock_account_unfold, Hlocked. simpl.
    repeat split; reflexivity.
  - intros Hactive. rewrite unlock_account_unfold, Hactive. reflexivity.
Qed.

Lemma reset_and_unlock_account_spec_witness :
  account_status (self three_failures) = LOCKED /\
  failed_login_attempts (self (snd (unlock_account three_failures))) = 0 /\
  account_status (self one_failure) = ACTIVE /\
  unlock_account one_failure = (Return tt, one_failure).
Proof.
  split; [reflexivity|].
  split; [apply (reset_and_unlock_account_spec three_failures); reflexivity|].
  split; [reflexivity|].
  apply (reset_and_unlock_account_spec one_failure). reflexivity.
Defined.

(** C7 as stated fails for [unlock_account] on an ACTIVE record whose
    counter is not 0: after one failed login the record is ACTIVE with
    counter 1, and [unlock_account] leaves counter and timestamp alone. *)
Lemma unlock_account_active_counterexample :
  account_status (self one_failure) = ACTIVE /\
  ~ (failed_login_attempts (self (snd (unlock_account one_failure))) = 0 /\
     last_failed_login (self (snd (unlock_account one_failure))) = None /\
     account_status (self (snd (unlock_account one_failure))) = ACTIVE).
Proof.
  split; [reflexivity|].
  intros [H _]. vm_compute in H. discriminate H.
Qed.

(** C6: on an ACTIVE record [is_locked_out] returns false and changes
    nothing; on a LOCKED record whose last failure is more than
    [LOCKOUT_DURATION] ago it does what [unlock_account] does (status
    ACTIVE, counter 0, timestamp cleared) and returns false; on a LOCKED
    record whose last failure is at most [LOCKOUT_DURATION] ago it
    returns true and changes nothing. *)
Theorem is_locked_out_spec settings now w :
  (account_status (self w) = ACTIVE ->
   is_locked_out settings now w = (Return false, w)) /\
  (forall t,
     account_status (self w) = LOCKED ->
     last_failed_login (self w) = Some t ->
     LOCKOUT_DURATION settings < now - t ->
     let w' := snd (is_locked_out settings now w) in
     fst (is_locked_out settings now w) = Return false /\
     w' = snd (unlock_account w) /\
     account_status (self w') = ACTIVE /\
     failed_login_attempts (self w') = 0 /\
     last_failed_login (self w') = None /\
     otp (self w') = otp (self w) /\
     otp_expiry_time (self w') = otp_expiry_time (self w)) /\
  (forall t,
     account_status (self w) = LOCKED ->
     last_failed_login (self w) = Some t ->
     now - t <= LOCKOUT_DURATION settings ->
     is_locked_out settings now w = (Return true, w)).
Proof.
  rewrite is_locked_out_unfold.
  split; [|split].
  - intros Hactive. rewrite Hactive. reflexivity.
  - intros t Hlocked Hlast Hgt. rewrite Hlocked, Hlast. simpl.
    destruct (Z.ltb_spec (LOCKOUT_DURATION settings) (now - t)); [|lia].
    rewrite unlock_account_unfold, Hlocked. simpl.
    repeat split; reflexivity.
  - intros t Hlocked Hlast Hle. rewrite Hlocked, Hlast. simpl.
    destruct (Z.ltb_spec (LOCKOUT_DURATION settings) (now - t)); [lia|].
    reflexivity.
Qed.

Lemma is_locked_out_spec_witness :
  is_locked_out example_settings 5 one_failure = (Return false, one_failure) /\
  is_locked_out example_settings 1830 three_failures
  = (Return true, three_failures) /\
  fst (is_locked_out example_settings 1831 three_failures) = Return false /\
  account_status (self (snd (is_locked_out example_settings 1831 three_failures)))
  = ACTIVE.
Proof.
  split; [apply (is_locked_out_spec example_settings 5 one_failure);
          reflexivity|].
  split; [apply (proj2 (proj2 (is_locked_out_spec example_settings 1830
                                 three_failures)) 30);
          [reflexivity|reflexivity|simpl; lia]|].
  assert (H := proj1 (proj2 (is_locked_out_spec example_settings 1831
                               three_failures)) 30
                 eq_refl eq_refl ltac:(simpl; lia)).
  cbv zeta in H. split; [apply H|apply H].
Defined.

(** A LOCKED record without a timestamp is reported locked whatever the
    clock says. *)
Lemma is_locked_out_without_timestamp settings now w :
  account_status (self w) = LOCKED ->
  last_failed_login (self w) = None ->
  is_locked_out settings now w = (Return true, w).
Proof.
  intros Hlocked Hlast. rewrite is_locked_out_unfold, Hlocked, Hlast.
  reflexivity.
Qed.

(** ** The lockout notification *)

(** Each call adds one notification if it is a failed login at or above
    the threshold, and none otherwise. *)
Lemma exec_notifications settings c now w :
  notifications (exec settings c now w)
  = (notifications w + if at_threshold settings c w then 1 else 0)%nat.
Proof.
  destruct c; simpl.
  - unfold notifications; simpl; lia.
  - rewrite verify_otp_unfold.
    destruct (otp_eq (otp (self w)) candidate); [|simpl; lia].
    destruct (otp_expiry_time (self w)) as [e|]; [|simpl; lia].
    destruct (now <? e); unfold notifications; simpl; lia.
  - rewrite handle_failed_login_attempts_unfold. cbv zeta.
    destruct (MAX_FAILED_LOGIN_ATTEMPTS settings
              <=? failed_login_attempts (self w) + 1);
      unfold notifications; simpl; lia.
  - unfold notifications; simpl; lia.
  - rewrite unlock_account_unfold.
    destruct (account_status (self w)); unfold notifications; simpl; lia.
  - rewrite is_locked_out_unfold, unlock_account_unfold.
    destruct (account_status (self w)); [simpl; lia|].
    destruct (lockout_expired settings (last_failed_login (self w)) now);
      unfold notifications; simpl; lia.
Qed.

(** Only a failed login at or above the threshold locks an account. *)
Lemma locks_at_threshold settings c now w :
  locks settings c now w = true -> at_threshold settings c w = true.
Proof.
  unfold locks. rewrite andb_true_iff, !AccountStatus_eqb_eq.
  intros [Hactive Hlocked]. destruct c; simpl in *.
  - congruence.
  - rewrite verify_otp_unfold in Hlocked.
    destruct (otp_eq (otp (self w)) candidate); [|simpl in *; congruence].
    destruct (otp_expiry_time (self w)) as [e|]; [|simpl in *; congruence].
    destruct (now <? e); simpl in *; congruence.
  - rewrite handle_failed_login_attempts_unfold in Hlocked. cbv zeta in Hlocked.
    destruct (MAX_FAILED_LOGIN_ATTEMPTS settings
              <=? failed_login_attempts (self w) + 1);
      [reflexivity|simpl in *; congruence].
  - discriminate Hlocked.
  - rewrite unlock_account_unfold, Hactive in Hlocked. simpl in *. congruence.
  - rewrite is_locked_out_unfold, Hactive in Hlocked. simpl in *. congruence.
Qed.

Lemma run_notifications settings calls w :
  notifications (run settings calls w)
  = (notifications w + threshold_calls settings calls w)%nat.
Proof.
  revert w. induction calls as [|[c now] rest IH]; intros w; simpl.
  - lia.
  - rewrite IH, exec_notifications. lia.
Qed.

Lemma lock_transitions_le_threshold_calls settings calls w :
  (lock_transitions settings calls w <= threshold_calls settings calls w)%nat.
Proof.
  revert w. induction calls as [|[c now] rest IH]; intros w; simpl.
  - lia.
  - specialize (IH (exec settings c now w)).
    destruct (locks settings c now w) eqn:Hlocks.
    + rewrite (locks_at_threshold _ _ _ _ Hlocks). lia.
    + destruct (at_threshold settings c w); lia.
Qed.

(** The counter after consecutive failed logins on a new record. *)
Lemma failures_counter settings addr times :
  failed_login_attempts (self (run settings (failures times) (fresh addr)))
  = Z.of_nat (length times).
Proof.
  induction times as [|t times IH] using rev_ind.
  - reflexivity.
  - rewrite failures_snoc, run_app, length_app. simpl.
    destruct (handle_failed_login_attempts_step settings t
                (run settings (failures times) (fresh addr)))
      as (_ & Hcount & _).
    cbv zeta in Hcount. rewrite Hcount, IH. lia.
Qed.

Lemma failures_notifications settings addr times :
  notifications (run settings (failures times) (fresh addr))
  = (length times
     - Nat.min (length times)
         (Z.to_nat (MAX_FAILED_LOGIN_ATTEMPTS settings - 1)))%nat.
Proof.
  induction times as [|t times IH] using rev_ind.
  - reflexivity.
  - rewrite failures_snoc, run_snoc, length_app.
    rewrite exec_notifications, IH. simpl at_threshold.
    rewrite failures_counter. simpl length.
    destruct (Z.leb_spec (MAX_FAILED_LOGIN_ATTEMPTS settings)
                (Z.of_nat (length times) + 1)); lia.
Qed.

(** C1, as amended: along every execution from a new record, a call
    invokes the lockout notifier exactly once if it is a
    [handle_failed_login_attempts] whose incremented counter is at or
    above [MAX_FAILED_LOGIN_ATTEMPTS] -- already LOCKED or not -- and
    never otherwise.  So every ACTIVE-to-LOCKED transition is notified
    by the call that makes it, the total is the number of such calls,
    and [n] consecutive failed logins on a new record send
    [n - min n (max 0 (MAX_FAILED_LOGIN_ATTEMPTS - 1))] notifications. *)
Theorem lockout_email_per_threshold_call settings addr calls c now times :
  let w := run settings calls (fresh addr) in
  notifications (exec settings c now w)
  = (notifications w + if at_threshold settings c w then 1 else 0)%nat /\
  (locks settings c now w = true ->
   notifications (exec settings c now w) = S (notifications w)) /\
  notifications w = threshold_calls settings calls (fresh addr) /\
  (lock_transitions settings calls (fresh addr) <= notifications w)%nat /\
  notifications (run settings (failures times) (fresh addr))
  = (length times
     - Nat.min (length times)
         (Z.to_nat (MAX_FAILED_LOGIN_ATTEMPTS settings - 1)))%nat.
Proof.
  cbv zeta. split; [apply exec_notifications|].
  split.
  { intros Hlocks. rewrite exec_notifications.
    rewrite (locks_at_threshold _ _ _ _ Hlocks). lia. }
  split; [rewrite run_notifications; reflexivity|].
  split; [|apply failures_notifications].
  rewrite run_notifications. simpl.
  apply lock_transitions_le_threshold_calls.
Qed.

Lemma lockout_email_per_threshold_call_witness :
  locks example_settings CallHandleFailedLoginAttempts 30
    (run example_settings (failures [10; 20]) (fresh example_address)) = true /\
  notifications
    (exec example_settings CallHandleFailedLoginAttempts 30
       (run example_settings (failures [10; 20]) (fresh example_address)))
  = S (notifications
         (run example_settings (failures [10; 20]) (fresh example_address))).
Proof.
  split; [reflexivity|].
  apply (lockout_email_per_threshold_call example_settings example_address
           (failures [10; 20]) CallHandleFailedLoginAttempts 30 []).
  reflexivity.
Defined.

(** C1 as stated fails: with a threshold of 3, four consecutive failed
    logins make one ACTIVE-to-LOCKED transition but two notifications;
    the fourth call, made while LOCKED, sends the second one. *)
Lemma duplicate_lockout_email_counterexample :
  ~ (notifications (run example_settings four_failures (fresh example_address))
     = lock_transitions example_settings four_failures (fresh example_address))
  /\ account_status (self three_failures) = LOCKED
  /\ ~ (notifications
          (exec example_settings CallHandleFailedLoginAttempts 40 three_failures)
        = notifications three_failures).
Proof.
  split; [|split].
  - vm_compute. discriminate.
  - reflexivity.
  - vm_compute. discriminate.
Qed.

(** The numbers behind the counterexample. *)
Lemma four_failures_two_emails :
  lock_transitions example_settings four_failures (fresh example_address) = 1%nat /\
  notifications (run example_settings four_failures (fresh example_address)) = 2%nat.
Proof. split; reflexivity. Qed.

(** ** Invariants along executions *)

(** The OTP methods leave the lockout fields alone. *)
Lemma exec_otp_call_frame settings c now w :
  match c with
  | CallSetOtp _ | CallVerifyOtp _ =>
      account_status (self (exec settings c now w)) = account_status (self w) /\
      failed_login_attempts (self (exec settings c now w))
      = failed_login_attempts (self w) /\
      last_failed_login (self (exec settings c now w))
      = last_failed_login (self w)
  | _ => True
  end.
Proof.
  destruct c; simpl; auto.
  rewrite verify_otp_unfold.
  destruct (otp_eq (otp (self w)) candidate); [|auto].
  destruct (otp_expiry_time (self w)) as [e|]; [|auto].
  destruct (now <? e); simpl; auto.
Qed.

(** The lockout methods leave the OTP fields alone. *)
Lemma exec_lockout_call_frame settings c now w :
  match c with
  | CallSetOtp _ | CallVerifyOtp _ => True
  | _ =>
      otp (self (exec settings c now w)) = otp (self w) /\
      otp_expiry_time (self (exec settings c now w)) = otp_expiry_time (self w)
  end.
Proof.
  destruct c; simpl; auto.
  - rewrite handle_failed_login_attempts_unfold. cbv zeta.
    destruct (MAX_FAILED_LOGIN_ATTEMPTS settings
              <=? failed_login_attempts (self w) + 1); simpl; auto.
  - rewrite unlock_account_unfold.
    destruct (account_status (self w)); simpl; auto.
  - rewrite is_locked_out_unfold, unlock_account_unfold.
    destruct (account_status (self w)); [auto|].
    destruct (lockout_expired settings (last_failed_login (self w)) now);
      simpl; auto.
Qed.

Lemma exec_otp_pending_invariant settings c now w :
  nonempty_code c = true ->
  otp_pending_invariant (self w) ->
  otp_pending_invariant (self (exec settings c now w)).
Proof.
  unfold otp_pending_invariant. intros Hcode Hinv.
  pose proof (exec_lockout_call_frame settings c now w) as Hframe.
  destruct c; [| |destruct Hframe as [-> ->]; exact Hinv ..].
  - simpl in *. split.
    + intros _. exists code. split; [reflexivity|].
      intros ->. discriminate Hcode.
    + intros _. discriminate.
  - simpl. rewrite verify_otp_unfold.
    destruct (otp_eq (otp (self w)) candidate); [|exact Hinv].
    destruct (otp_expiry_time (self w)) as [e|] eqn:Hexpiry;
      [|simpl; rewrite Hexpiry; exact Hinv].
    destruct (now <? e); [|simpl; rewrite Hexpiry; exact Hinv].
    simpl. split.
    + intros H. exfalso. apply H. reflexivity.
    + intros [code [Hcons Hne]]. exfalso. apply Hne. congruence.
Qed.

Lemma exec_locked_timestamp_invariant settings c now w :
  locked_timestamp_invariant (self w) ->
  locked_timestamp_invariant (self (exec settings c now w)).
Proof.
  unfold locked_timestamp_invariant. intros Hinv.
  pose proof (exec_otp_call_frame settings c now w) as Hframe.
  destruct c; [destruct Hframe as (-> & _ & ->); exact Hinv ..| | | |].
  - simpl.
    destruct (handle_failed_login_attempts_step settings now w)
      as (_ & _ & Hlast & _).
    cbv zeta in Hlast. rewrite Hlast. intros _. discriminate.
  - simpl. discriminate.
  - simpl. rewrite unlock_account_unfold.
    destruct (account_status (self w)) eqn:Hstatus; simpl.
    + rewrite Hstatus. discriminate.
    + discriminate.
  - simpl. rewrite is_locked_out_unfold, unlock_account_unfold.
    destruct (account_status (self w)) eqn:Hstatus.
    + simpl. rewrite Hstatus. discriminate.
    + destruct (lockout_expired settings (last_failed_login (self w)) now);
        simpl.
      * discriminate.
      * rewrite Hstatus. exact Hinv.
Qed.

Lemma run_otp_pending_invariant settings calls w :
  nonempty_codes calls = true ->
  otp_pending_invariant (self w) ->
  otp_pending_invariant (self (run settings calls w)).
Proof.
  revert w. induction calls as [|[c now] rest IH]; intros w Hcodes Hinv;
    simpl in *.
  - exact Hinv.
  - apply andb_true_iff in Hcodes. destruct Hcodes as [Hc Hrest].
    apply IH; [exact Hrest|].
    apply exec_otp_pending_invariant; assumption.
Qed.

Lemma run_locked_timestamp_invariant settings calls w :
  locked_timestamp_invariant (self w) ->
  locked_timestamp_invariant (self (run settings calls w)).
Proof.
  revert w. induction calls as [|[c now] rest IH]; intros w Hinv; simpl.
  - exact Hinv.
  - apply IH. apply exec_locked_timestamp_invariant. exact Hinv.
Qed.

Lemma fresh_otp_pending_invariant addr : otp_pending_invariant (self (fresh addr)).
Proof.
  unfold otp_pending_invariant. simpl. split.
  - intros H. exfalso. apply H. reflexivity.
  - intros [code [H _]]. discriminate H.
Qed.

Lemma fresh_locked_timestamp_invariant addr :
  locked_timestamp_invariant (self (fresh addr)).
Proof. unfold locked_timestamp_invariant. simpl. discriminate. Qed.

(** C9: in every state reached from a new record by calls of the six
    methods, [set_otp] being given non-empty codes, [otp_expiry_time] is
    set if and only if [otp] holds a non-empty (not yet consumed) code. *)
Theorem otp_expiry_time_set_iff_otp_pending settings addr calls :
  nonempty_codes calls = true ->
  let u := self (run settings calls (fresh addr)) in
  otp_expiry_time u <> None <-> exists code, otp u = Some code /\ code <> EmptyString.
Proof.
  intros Hcodes. cbv zeta.
  apply (run_otp_pending_invariant settings calls (fresh addr) Hcodes).
  apply fresh_otp_pending_invariant.
Qed.

Lemma otp_expiry_time_set_iff_otp_pending_witness :
  nonempty_codes otp_session = true /\
  (let u := self (run example_settings otp_session (fresh example_address)) in
   otp_expiry_time u <> None <-> exists code, otp u = Some code /\ code <> EmptyString) /\
  (let u := self (run example_settings [(CallSetOtp "483920", 0)]
                    (fresh example_address)) in
   otp_expiry_time u <> None <-> exists code, otp u = Some code /\ code <> EmptyString).
Proof.
  split; [reflexivity|]. split.
  - apply (otp_expiry_time_set_iff_otp_pending example_settings
             example_address otp_session). reflexivity.
  - apply (otp_expiry_time_set_iff_otp_pending example_settings
             example_address [(CallSetOtp "483920", 0)]). reflexivity.
Defined.

(** C10: in every state reached from a new record by calls of the six
    methods, a LOCKED record has [last_failed_login] set. *)
Theorem locked_implies_last_failed_login settings addr calls :
  account_status (self (run settings calls (fresh addr))) = LOCKED ->
  last_failed_login (self (run settings calls (fresh addr))) <> None.
Proof.
  apply (run_locked_timestamp_invariant settings calls (fresh addr)).
  apply fresh_locked_timestamp_invariant.
Qed.

Lemma locked_implies_last_failed_login_witness :
  account_status
    (self (run example_settings (failures [10; 20; 30]) (fresh example_address)))
  = LOCKED /\
  last_failed_login
    (self (run example_settings (failures [10; 20; 30]) (fresh example_address)))
  <> None.
Proof.
  split; [reflexivity|].
  apply (locked_implies_last_failed_login example_settings example_address
           (failures [10; 20; 30])).
  reflexivity.
Defined.

(** With the timestamp set, a LOCKED record reached by an execution is
    unlocked by [is_locked_out] once the clock is late enough. *)
Lemma reachable_lock_expires settings addr calls :
  account_status (self (run settings calls (fresh addr))) = LOCKED ->
  exists now,
    fst (is_locked_out settings now (run settings calls (fresh addr)))
    = Return false.
Proof.
  intros Hlocked.
  pose proof (run_locked_timestamp_invariant settings calls (fresh addr)
                (fresh_locked_timestamp_invariant addr)) as Hinv.
  destruct (last_failed_login (self (run settings calls (fresh addr))))
    as [t|] eqn:Hlast.
  - exists (t + LOCKOUT_DURATION settings + 1).
    rewrite is_locked_out_unfold, Hlocked, Hlast. simpl.
    destruct (Z.ltb_spec (LOCKOUT_DURATION settings)
                (t + LOCKOUT_DURATION settings + 1 - t)); [reflexivity|lia].
  - exfalso. apply (Hinv Hlocked). exact Hlast.
Qed.

(** X2: in a state reached by an execution, [verify_otp] with a
    non-empty candidate always returns: the exception needs the empty
    candidate against a consumed OTP. *)
Lemma reachable_verify_otp_returns settings addr calls candidate now :
  nonempty_codes calls = true ->
  candidate <> EmptyString ->
  exists b,
    fst (verify_otp candidate now (run settings calls (fresh addr))) = Return b.
Proof.
  intros Hcodes Hne.
  pose proof (run_otp_pending_invariant settings calls (fresh addr) Hcodes
                (fresh_otp_pending_invariant addr)) as Hinv.
  set (w := run settings calls (fresh addr)) in *.
  destruct (fst (verify_otp candidate now w)) as [b|[]] eqn:Hres.
  - exists b. reflexivity.
  - apply verify_otp_raises_iff in Hres. destruct Hres as [Hotp Hexpiry].
    exfalso. apply (proj2 Hinv); [|exact Hexpiry].
    exists candidate. split; assumption.
Qed.

(** ** Further properties of the OTP and lockout methods *)

(** X1: right after [set_otp code] at time [t0], [verify_otp candidate]
    at time [t1] does not raise and returns true exactly when the
    candidate is [code] and [t1] is before [t0 + OTP_EXPIRY_TIME],
    whatever OTP was pending before: the new code replaces the old. *)
Theorem set_otp_then_verify_otp settings code candidate t0 t1 w :
  fst (verify_otp candidate t1 (snd (set_otp settings code t0 w)))
  = Return (String.eqb code candidate && (t1 <? t0 + OTP_EXPIRY_TIME settings)).
Proof.
  rewrite verify_otp_unfold. simpl.
  destruct (String.eqb code candidate); [|reflexivity].
  destruct (t1 <? t0 + OTP_EXPIRY_TIME settings); reflexivity.
Qed.

Lemma reachable_verify_otp_returns_witness :
  nonempty_codes otp_session = true /\
  "483920" <> EmptyString /\
  exists b,
    fst (verify_otp "483920" 400
           (run example_settings otp_session (fresh example_address)))
    = Return b.
Proof.
  split; [reflexivity|]. split; [discriminate|].
  apply (reachable_verify_otp_returns example_settings example_address
           otp_session "483920" 400).
  - reflexivity.
  - discriminate.
Defined.

Lemma exec_threshold_invariant settings c now w :
  0 < MAX_FAILED_LOGIN_ATTEMPTS settings ->
  0 <= failed_login_attempts (self w) /\
  (account_status (self w) = LOCKED <->
   MAX_FAILED_LOGIN_ATTEMPTS settings <= failed_login_attempts (self w)) ->
  0 <= failed_login_attempts (self (exec settings c now w)) /\
  (account_status (self (exec settings c now w)) = LOCKED <->
   MAX_FAILED_LOGIN_ATTEMPTS settings
   <= failed_login_attempts (self (exec settings c now w))).
Proof.
  intros Hmax [Hnonneg Hiff].
  pose proof (exec_otp_call_frame settings c now w) as Hframe.
  assert (Hreset : 0 <= 0 /\
                   (ACTIVE = LOCKED <-> MAX_FAILED_LOGIN_ATTEMPTS settings <= 0)).
  { split; [lia|]. split; [discriminate|lia]. }
  destruct c; [destruct Hframe as (-> & -> & _); auto ..| | | |].
  - simpl.
    destruct (handle_failed_login_attempts_step settings now w)
      as (_ & Hcount & _ & _ & Hlock & Hkeep).
    cbv zeta in *. rewrite Hcount. split; [lia|].
    destruct (Z.le_gt_cases (MAX_FAILED_LOGIN_ATTEMPTS settings)
                (failed_login_attempts (self w) + 1)) as [Hge|Hlt].
    + split; [intros _; exact Hge|intros _; exact (Hlock Hge)].
    + rewrite (Hkeep Hlt). split; [|lia].
      intros Hlocked. apply Hiff in Hlocked. lia.
  - simpl. exact Hreset.
  - simpl. rewrite unlock_account_unfold.
    destruct (account_status (self w)) eqn:Hstatus; simpl.
    + rewrite Hstatus. auto.
    + exact Hreset.
  - simpl. rewrite is_locked_out_unfold, unlock_account_unfold.
    destruct (account_status (self w)) eqn:Hstatus.
    + simpl. rewrite Hstatus. auto.
    + destruct (lockout_expired settings (last_failed_login (self w)) now);
        simpl.
      * exact Hreset.
      * rewrite Hstatus. auto.
Qed.

(** X3: with a positive threshold, in every state reached from a new
    record the counter is non-negative and the account is LOCKED exactly
    when the counter is at or above [MAX_FAILED_LOGIN_ATTEMPTS]. *)
Theorem locked_iff_threshold_reached settings addr calls :
  0 < MAX_FAILED_LOGIN_ATTEMPTS settings ->
  let u := self (run settings calls (fresh addr)) in
  0 <= failed_login_attempts u /\
  (account_status u = LOCKED <->
   MAX_FAILED_LOGIN_ATTEMPTS settings <= failed_login_attempts u).
Proof.
  intros Hmax. cbv zeta.
  assert (Hinit : 0 <= failed_login_attempts (self (fresh addr)) /\
                  (account_status (self (fresh addr)) = LOCKED <->
                   MAX_FAILED_LOGIN_ATTEMPTS settings
                   <= failed_login_attempts (self (fresh addr)))).
  { simpl. split; [lia|]. split; [discriminate|lia]. }
  revert Hinit. generalize (fresh addr).
  induction calls as [|[c now] rest IH]; intros w Hinv; simpl.
  - exact Hinv.
  - apply IH. apply exec_threshold_invariant; assumption.
Qed.

Lemma locked_iff_threshold_reached_witness :
  0 < MAX_FAILED_LOGIN_ATTEMPTS example_settings /\
  (let u := self (run example_settings four_failures (fresh example_address)) in
   0 <= failed_login_attempts u /\
   (account_status u = LOCKED <->
    MAX_FAILED_LOGIN_ATTEMPTS example_settings <= failed_login_attempts u)).
Proof.
  split; [reflexivity|].
  apply (locked_iff_threshold_reached example_settings example_address
           four_failures).
  reflexivity.
Defined.

(** X4: whichever call takes a record from LOCKED to ACTIVE, it leaves
    the counter at 0 and the timestamp cleared, and the row it writes
    last is that instance. *)
Theorem leaving_locked_resets_counter settings c now w :
  account_status (self w) = LOCKED ->
  account_status (self (exec settings c now w)) = ACTIVE ->
  failed_login_attempts (self (exec settings c now w)) = 0 /\
  last_failed_login (self (exec settings c now w)) = None /\
  persisted (exec settings c now w) = Some (self (exec settings c now w)).
Proof.
  intros Hlocked Hactive.
  pose proof (exec_otp_call_frame settings c now w) as Hframe.
  destruct c; [destruct Hframe as (Hstatus & _); congruence ..| | | |].
  - simpl in *. rewrite handle_failed_login_attempts_unfold in *.
    cbv zeta in *.
    destruct (MAX_FAILED_LOGIN_ATTEMPTS settings
              <=? failed_login_attempts (self w) + 1);
      simpl in *; congruence.
  - simpl. repeat split; reflexivity.
  - simpl in *. rewrite unlock_account_unfold, Hlocked in *. simpl.
    repeat split; reflexivity.
  - simpl in *. rewrite is_locked_out_unfold, unlock_account_unfold, Hlocked in *.
    destruct (lockout_expired settings (last_failed_login (self w)) now);
      simpl in *; [repeat split; reflexivity|congruence].
Qed.

Lemma leaving_locked_resets_counter_witness :
  account_status (self three_failures) = LOCKED /\
  account_status
    (self (exec example_settings CallIsLockedOut 1831 three_failures)) = ACTIVE /\
  failed_login_attempts
    (self (exec example_settings CallIsLockedOut 1831 three_failures)) = 0.
Proof.
  split; [reflexivity|]. split; [reflexivity|].
  apply (leaving_locked_resets_counter example_settings CallIsLockedOut 1831
           three_failures); reflexivity.
Defined.

(** A call either leaves the world as it was or ends by writing the
    instance as it leaves it. *)
Lemma exec_unchanged_or_saved settings c now w :
  exec settings c now w = w \/
  persisted (exec settings c now w) = Some (self (exec settings c now w)).
Proof.
  destruct c; simpl.
  - right. reflexivity.
  - rewrite verify_otp_unfold.
    destruct (otp_eq (otp (self w)) candidate); [|left; reflexivity].
    destruct (otp_expiry_time (self w)) as [e|]; [|left; reflexivity].
    destruct (now <? e); [right|left]; reflexivity.
  - right. apply (handle_failed_login_attempts_step settings now w).
  - right. reflexivity.
  - rewrite unlock_account_unfold.
    destruct (account_status (self w)); [left|right]; reflexivity.
  - rewrite is_locked_out_unfold, unlock_account_unfold.
    destruct (account_status (self w)); [left; reflexivity|].
    destruct (lockout_expired settings (last_failed_login (self w)) now);
      [right|left]; reflexivity.
Qed.

Lemma run_unchanged_or_saved settings calls w0 w :
  w = w0 \/ persisted w = Some (self w) ->
  run settings calls w = w0 \/
  persisted (run settings calls w) = Some (self (run settings calls w)).
Proof.
  revert w. induction calls as [|[c now] rest IH]; intros w Hinv; simpl.
  - exact Hinv.
  - apply IH.
    destruct (exec_unchanged_or_saved settings c now w) as [-> | Hsaved].
    + exact Hinv.
    + right. exact Hsaved.
Qed.

(** X5: in every world reached from a new record, either nothing has
    happened to it yet or the row written by the last [save()] is the
    in-memory instance: no method leaves a change unsaved. *)
Theorem instance_is_saved settings addr calls :
  let w := run settings calls (fresh addr) in
  w = fresh addr \/ persisted w = Some (self w).
Proof.
  cbv zeta. apply run_unchanged_or_saved. left. reflexivity.
Qed.

Lemma exec_emails_follow_save settings c now w :
  emails_follow_save settings (effects w) ->
  emails_follow_save settings (effects (exec settings c now w)).
Proof.
  intros Hinv. destruct c; simpl.
  - exact Hinv.
  - rewrite verify_otp_unfold.
    destruct (otp_eq (otp (self w)) candidate); [|exact Hinv].
    destruct (otp_expiry_time (self w)) as [e|]; [|exact Hinv].
    destruct (now <? e); exact Hinv.
  - rewrite handle_failed_login_attempts_unfold. cbv zeta.
    destruct (Z.leb_spec (MAX_FAILED_LOGIN_ATTEMPTS settings)
                (failed_login_attempts (self w) + 1)) as [Hge|Hlt]; simpl.
    + split; [reflexivity|]. split; [exact Hge|].
      split; [eexists; reflexivity|exact Hinv].
    + exact Hinv.
  - exact Hinv.
  - rewrite unlock_account_unfold.
    destruct (account_status (self w)); exact Hinv.
  - rewrite is_locked_out_unfold, unlock_account_unfold.
    destruct (account_status (self w)); [exact Hinv|].
    destruct (lockout_expired settings (last_failed_login (self w)) now);
      exact Hinv.
Qed.

(** X6: in every trace produced from a new record, each lockout e-mail
    is about an instance that is LOCKED with its counter at or above
    the threshold, and that very row was written by [save()] immediately
    before the e-mail was sent. *)
Theorem lockout_emails_follow_save settings addr calls :
  emails_follow_save settings (effects (run settings calls (fresh addr))).
Proof.
  assert (Hinit : emails_follow_save settings (effects (fresh addr)))
    by exact I.
  revert Hinit. generalize (fresh addr).
  induction calls as [|[c now] rest IH]; intros w Hinv; simpl.
  - exact Hinv.
  - apply IH. apply exec_emails_follow_save. exact Hinv.
Qed.

(** X7: the lockout window is counted from the latest failed login,
    locked or not before: after a [handle_failed_login_attempts] at time
    [t] that is at or above the threshold, [is_locked_out] at time [now]
    returns true exactly when [now - t <= LOCKOUT_DURATION]. *)
Theorem lockout_window_restarts settings t now w :
  MAX_FAILED_LOGIN_ATTEMPTS settings <= failed_login_attempts (self w) + 1 ->
  fst (is_locked_out settings now
         (snd (handle_failed_login_attempts settings t w)))
  = Return (now - t <=? LOCKOUT_DURATION settings).
Proof.
  intros Hge.
  destruct (handle_failed_login_attempts_step settings t w)
    as (_ & _ & Hlast & _ & Hlock & _).
  cbv zeta in *. rewrite is_locked_out_unfold, (Hlock Hge), Hlast. simpl.
  rewrite Z.leb_antisym.
  destruct (LOCKOUT_DURATION settings <? now - t); reflexivity.
Qed.

Lemma lockout_window_restarts_witness :
  MAX_FAILED_LOGIN_ATTEMPTS example_settings
  <= failed_login_attempts (self three_failures) + 1 /\
  fst (is_locked_out example_settings 1831
         (snd (handle_failed_login_attempts example_settings 40 three_failures)))
  = Return (1831 - 40 <=? LOCKOUT_DURATION example_settings).
Proof.
  split; [simpl; lia|].
  apply (lockout_window_restarts example_settings 40 1831 three_failures).
  simpl. lia.
Defined.

(** X8: an execution made of [set_otp] and [verify_otp] calls only never
    touches the lockout state: status, counter and timestamp are as
    before and no lockout e-mail is sent.  In particular a refused OTP
    is not counted as a failed login. *)
Theorem otp_calls_leave_lockout_alone settings calls w :
  otp_calls_only calls = true ->
  let w' := run settings calls w in
  account_status (self w') = account_status (self w) /\
  failed_login_attempts (self w') = failed_login_attempts (self w) /\
  last_failed_login (self w') = last_failed_login (self w) /\
  notifications w' = notifications w.
Proof.
  cbv zeta. revert w.
  induction calls as [|[c now] rest IH]; intros w Honly; simpl in *.
  - repeat split; reflexivity.
  - apply andb_true_iff in Honly. destruct Honly as [Hc Hrest].
    destruct (IH (exec settings c now w) Hrest) as (-> & -> & -> & ->).
    pose proof (exec_otp_call_frame settings c now w) as Hframe.
    pose proof (exec_notifications settings c now w) as Hcount.
    destruct c; try discriminate Hc;
      destruct Hframe as (-> & -> & ->); rewrite Hcount;
      cbn [at_threshold]; repeat split; try reflexivity; lia.
Qed.

Lemma otp_calls_leave_lockout_alone_witness :
  otp_calls_only [(CallSetOtp "483920", 35); (CallVerifyOtp "000000", 40)]
  = true /\
  account_status
    (self (run example_settings
             [(CallSetOtp "483920", 35); (CallVerifyOtp "000000", 40)]
             three_failures))
  = account_status (self three_failures).
Proof.
  split; [reflexivity|].
  apply (otp_calls_leave_lockout_alone example_settings
           [(CallSetOtp "483920", 35); (CallVerifyOtp "000000", 40)]
           three_failures).
  reflexivity.
Defined.

(** X9: an execution made of the four lockout methods only never
    touches the pending OTP, so [verify_otp] gives the same answer after
    it as before: a lockout or an unlock neither cancels nor blocks a
    pending OTP. *)
Theorem lockout_calls_leave_otp_alone settings calls w :
  lockout_calls_only calls = true ->
  let w' := run settings calls w in
  otp (self w') = otp (self w) /\
  otp_expiry_time (self w') = otp_expiry_time (self w) /\
  forall candidate now,
    fst (verify_otp candidate now w') = fst (verify_otp candidate now w).
Proof.
  cbv zeta. intros Honly.
  assert (Hfields : otp (self (run settings calls w)) = otp (self w) /\
                    otp_expiry_time (self (run settings calls w))
                    = otp_expiry_time (self w)).
  { revert w.
    induction calls as [|[c now] rest IH]; intros w; simpl in *.
    - split; reflexivity.
    - apply andb_true_iff in Honly. destruct Honly as [Hc Hrest].
      destruct (IH Hrest (exec settings c now w)) as (-> & ->).
      pose proof (exec_lockout_call_frame settings c now w) as Hframe.
      destruct c; try discriminate Hc; exact Hframe. }
  destruct Hfields as [Hotp Hexpiry].
  split; [exact Hotp|]. split; [exact Hexpiry|].
  intros candidate now. rewrite !verify_otp_unfold, Hotp, Hexpiry.
  destruct (otp_eq (otp (self w)) candidate); [|reflexivity].
  destruct (otp_expiry_time (self w)) as [e|]; [|reflexivity].
  destruct (now <? e); reflexivity.
Qed.

Lemma lockout_calls_leave_otp_alone_witness :
  lockout_calls_only four_failures = true /\
  fst (verify_otp "483920" 100 (run example_settings four_failures otp_issued))
  = fst (verify_otp "483920" 100 otp_issued).
Proof.
  split; [reflexivity|].
  apply (lockout_calls_leave_otp_alone example_settings four_failures
           otp_issued).
  reflexivity.
Defined.

(** X19: [is_locked_out] is stable: asked again at the same instant it
    gives the same answer and changes nothing more, and once it has
    answered false it answers false at every later reading, without
    writing, until another method is called. *)
Theorem is_locked_out_stable settings now w :
  let answer := fst (is_locked_out settings now w) in
  let w' := snd (is_locked_out settings now w) in
  is_locked_out settings now w' = (answer, w') /\
  (answer = Return false ->
   forall later, is_locked_out settings later w' = (Return false, w')).
Proof.
  cbv zeta. rewrite (is_locked_out_unfold settings now w).
  destruct (account_status (self w)) eqn:Hstatus.
  - simpl. split.
    + rewrite is_locked_out_unfold, Hstatus. reflexivity.
    + intros _ later. rewrite is_locked_out_unfold, Hstatus. reflexivity.
  - destruct (lockout_expired settings (last_failed_login (self w)) now)
      eqn:Hexpired.
    + rewrite unlock_account_unfold, Hstatus. simpl. split.
      * reflexivity.
      * intros _ later. reflexivity.
    + simpl. split.
      * rewrite is_locked_out_unfold, Hstatus, Hexpired. reflexivity.
      * discriminate.
Qed.

Lemma is_locked_out_stable_witness :
  fst (is_locked_out example_settings 1831 three_failures) = Return false /\
  is_locked_out example_settings 5000
    (snd (is_locked_out example_settings 1831 three_failures))
  = (Return false, snd (is_locked_out example_settings 1831 three_failures)).
Proof.
  split; [reflexivity|].
  apply (is_locked_out_stable example_settings 1831 three_failures).
  reflexivity.
Defined.

(** ** [generate_otp] and [generate_username] *)

Lemma length_string_of_list_ascii l :
  String.length (string_of_list_ascii l) = List.length l.
Proof. induction l as [|c l IH]; simpl; congruence. Qed.

Lemma string_length_append s1 s2 :
  String.length (s1 ++ s2)%string = (String.length s1 + String.length s2)%nat.
Proof. induction s1 as [|c s1 IH]; simpl; congruence. Qed.

Lemma choices_length rnd population k :
  List.length (choices rnd population k) = Z.to_nat k.
Proof. unfold choices. rewrite length_map, length_seq. reflexivity. Qed.

Lemma choices_in rnd population k :
  population <> [] ->
  Forall (fun c => In c population) (choices rnd population k).
Proof.
  intros Hne. unfold choices. apply Forall_forall. intros c Hin.
  apply in_map_iff in Hin. destruct Hin as [i [<- _]].
  apply nth_In. apply Nat.mod_upper_bound.
  destruct population; [congruence|discriminate].
Qed.

Lemma index_of_spec c population :
  In c population ->
  (index_of c population < List.length population)%nat /\
  nth (index_of c population) population "0"%char = c.
Proof.
  induction population as [|x rest IH]; intros Hin; [contradiction|].
  simpl. destruct (Ascii.eqb_spec x c) as [->|Hneq].
  - split; [lia|reflexivity].
  - destruct Hin as [Heq|Hin]; [congruence|].
    destruct (IH Hin) as [Hlt Hnth]. split; [lia|exact Hnth].
Qed.

Lemma nth_map_seq (f : nat -> ascii) count start i d :
  (i < count)%nat -> nth i (map f (seq start count)) d = f (start + i)%nat.
Proof.
  revert start i. induction count as [|count IH]; intros start i Hi; [lia|].
  simpl. destruct i as [|i].
  - rewrite Nat.add_0_r. reflexivity.
  - rewrite IH by lia. f_equal. lia.
Qed.

(** [choices] excludes no outcome: any list over the population is what
    it picks under a suitable source of draws. *)
Lemma choices_draws_for population target :
  Forall (fun c => In c population) target ->
  choices (draws_for population target) population
    (Z.of_nat (List.length target)) = target.
Proof.
  intros Hall. unfold choices. rewrite Nat2Z.id.
  apply (nth_ext _ _ "0"%char "0"%char).
  - rewrite length_map, length_seq. reflexivity.
  - intros i Hi. rewrite length_map, length_seq in Hi.
    rewrite (nth_map_seq _ _ O) by exact Hi. simpl.
    unfold draws_for.
    assert (Hin : In (nth i target "0"%char) population).
    { rewrite Forall_forall in Hall. apply Hall. apply nth_In. exact Hi. }
    destruct (index_of_spec _ _ Hin) as [Hlt Hnth].
    rewrite Nat.mod_small by exact Hlt. exact Hnth.
Qed.

(** X10: the strings [generate_otp(length)] can return are exactly the
    strings of [length] decimal digits (of no character when [length]
    is negative). *)
Theorem generate_otp_range length code :
  (exists rnd, generate_otp rnd length = code) <->
  String.length code = Z.to_nat length /\
  Forall (fun c => In c digits) (list_ascii_of_string code).
Proof.
  split.
  - intros [rnd <-]. unfold generate_otp. split.
    + rewrite length_string_of_list_ascii. apply choices_length.
    + rewrite list_ascii_of_string_of_list_ascii.
      apply choices_in. discriminate.
  - intros [Hlen Hdigits].
    exists (draws_for digits (list_ascii_of_string code)).
    unfold generate_otp.
    assert (Hk : Z.to_nat length
                 = Z.to_nat (Z.of_nat (List.length (list_ascii_of_string code)))).
    { rewrite Nat2Z.id, <- Hlen.
      rewrite <- (string_of_list_ascii_of_string code) at 1.
      apply length_string_of_list_ascii. }
    unfold choices at 1. rewrite Hk.
    change (string_of_list_ascii
              (choices (draws_for digits (list_ascii_of_string code)) digits
                 (Z.of_nat (List.length (list_ascii_of_string code)))) = code).
    rewrite (choices_draws_for digits _ Hdigits).
    apply string_of_list_ascii_of_string.
Qed.

(** X11: an OTP produced by [generate_otp] with a positive length,
    issued by [set_otp] and verified before it expires, is accepted
    once and refused when presented again. *)
Theorem generated_otp_single_use settings rnd length t0 t1 t2 w :
  0 < length ->
  t1 < t0 + OTP_EXPIRY_TIME settings ->
  let code := generate_otp rnd length in
  let w1 := snd (set_otp settings code t0 w) in
  fst (verify_otp code t1 w1) = Return true /\
  fst (verify_otp code t2 (snd (verify_otp code t1 w1))) = Return false.
Proof.
  intros Hlen Hlt. cbv zeta.
  set (code := generate_otp rnd length).
  assert (Hne : code <> EmptyString).
  { intros Hempty.
    assert (Hl : String.length code = Z.to_nat length).
    { unfold code, generate_otp.
      rewrite length_string_of_list_ascii. apply choices_length. }
    rewrite Hempty in Hl. simpl in Hl. lia. }
  rewrite !verify_otp_unfold. simpl. rewrite String.eqb_refl.
  destruct (Z.ltb_spec t1 (t0 + OTP_EXPIRY_TIME settings)); [|lia].
  split; [reflexivity|]. simpl.
  destruct code as [|c rest]; [congruence|reflexivity].
Qed.

Lemma generated_otp_single_use_witness :
  0 < 6 /\ 299 < 0 + OTP_EXPIRY_TIME example_settings /\
  fst (verify_otp (generate_otp example_draws 6) 299
         (snd (set_otp example_settings (generate_otp example_draws 6) 0
                 (fresh example_address))))
  = Return true.
Proof.
  split; [lia|]. split; [simpl; lia|].
  apply (generated_otp_single_use example_settings example_draws 6 0 299 300
           (fresh example_address)).
  - lia.
  - simpl. lia.
Defined.

Lemma flush_nonempty cur w : In w (flush cur) -> w <> EmptyString.
Proof.
  destruct cur as [|c cur]; simpl; [contradiction|].
  intros [<-|[]] Hempty.
  assert (Hlen : String.length (string_of_list_ascii (rev cur ++ [c])) = O)
    by (rewrite Hempty; reflexivity).
  rewrite length_string_of_list_ascii, length_app in Hlen. simpl in Hlen. lia.
Qed.

(** [split()] never yields an empty word. *)
Lemma split_from_nonempty s cur w :
  In w (split_from s cur) -> w <> EmptyString.
Proof.
  revert cur. induction s as [|c rest IH]; intros cur; simpl.
  - apply flush_nonempty.
  - destruct (isspace c).
    + intros Hin. apply in_app_or in Hin. destruct Hin as [Hin|Hin].
      * exact (flush_nonempty _ _ Hin).
      * exact (IH _ Hin).
    + apply IH.
Qed.

Lemma initials_returns words :
  (forall w, In w words -> w <> EmptyString) ->
  exists firsts,
    initials words = Returns firsts /\ List.length firsts = List.length words.
Proof.
  induction words as [|w rest IH]; intros Hne.
  - exists []. split; reflexivity.
  - destruct IH as [firsts [Hfirsts Hlen]].
    { intros w' Hin. apply Hne. right. exact Hin. }
    destruct w as [|c tail].
    + exfalso. apply (Hne EmptyString); [left|]; reflexivity.
    + exists (c :: firsts). simpl. rewrite Hfirsts. simpl.
      split; [reflexivity|congruence].
Qed.

Lemma upper_length s : String.length (upper s) = String.length s.
Proof. induction s as [|c s IH]; simpl; congruence. Qed.

Lemma upper_char_not_lower c : islower (upper_char c) = false.
Proof.
  unfold upper_char, islower.
  destruct (Nat.leb 97 (nat_of_ascii c) && Nat.leb (nat_of_ascii c) 122)
    eqn:Hlower; [|exact Hlower].
  apply andb_true_iff in Hlower. destruct Hlower as [Hlo Hhi].
  apply Nat.leb_le in Hlo, Hhi.
  rewrite nat_ascii_embedding by lia.
  apply andb_false_iff. left. apply Nat.leb_gt. lia.
Qed.

Lemma upper_no_lower s :
  Forall (fun c => islower c = false) (list_ascii_of_string (upper s)).
Proof.
  induction s as [|c s IH]; simpl; constructor.
  - apply upper_char_not_lower.
  - exact IH.
Qed.

(** The shape of every result of [generate_username]. *)
Lemma generate_username_unfold name rnd :
  exists firsts,
    List.length firsts = List.length (split name) /\
    generate_username (Some name) rnd
    = Returns (upper (string_of_list_ascii firsts) ++ "--"
               ++ string_of_list_ascii
                    (choices rnd (ascii_uppercase ++ digits)
                       (16 - Z.of_nat (String.length
                                         (upper (string_of_list_ascii firsts)))
                        - 1)))%string.
Proof.
  destruct (initials_returns (split name)) as [firsts [Hfirsts Hlen]].
  { intros w. apply split_from_nonempty. }
  exists firsts. split; [exact Hlen|].
  unfold generate_username. rewrite Hfirsts. reflexivity.
Qed.

(** X12: with [SCHOOL_NAME] unset [generate_username] raises
    [AttributeError]; with it set, whatever the name and the random
    draws, it returns a username of exactly 17 characters when the name
    has at most 15 words, and of two more characters than there are
    words otherwise -- never one of 16 characters or fewer. *)
Theorem generate_username_length rnd :
  generate_username None rnd = Raises AttributeError /\
  forall name,
    exists username,
      generate_username (Some name) rnd = Returns username /\
      Z.of_nat (String.length username)
      = Z.max 17 (Z.of_nat (List.length (split name)) + 2).
Proof.
  split; [reflexivity|]. intros name.
  destruct (generate_username_unfold name rnd) as [firsts [Hlen Hres]].
  eexists. split; [exact Hres|].
  rewrite !string_length_append, !length_string_of_list_ascii,
    choices_length, upper_length, length_string_of_list_ascii, Hlen.
  simpl String.length. lia.
Qed.

(** X13: for an ASCII school name, a username returned by
    [generate_username] is a prefix with one character per word of the
    school name and no lower-case letter, then two hyphens, then
    characters drawn from the upper-case letters and the digits only. *)
Theorem generate_username_shape name rnd username :
  isascii name = true ->
  generate_username (Some name) rnd = Returns username ->
  exists prefix random_chars,
    username = (prefix ++ "--" ++ random_chars)%string /\
    String.length prefix = List.length (split name) /\
    Forall (fun c => islower c = false) (list_ascii_of_string prefix) /\
    Forall (fun c => In c (ascii_uppercase ++ digits))
           (list_ascii_of_string random_chars).
Proof.
  intros _ Hres.
  destruct (generate_username_unfold name rnd) as [firsts [Hlen Hunfold]].
  rewrite Hunfold in Hres. injection Hres as <-.
  eexists. eexists. split; [reflexivity|].
  split; [rewrite upper_length, length_string_of_list_ascii; exact Hlen|].
  split; [apply upper_no_lower|].
  rewrite list_ascii_of_string_of_list_ascii.
  apply choices_in. discriminate.
Qed.

Lemma generate_username_shape_witness :
  isascii "Outshine School" = true /\
  generate_username (Some "Outshine School") example_draws
  = Returns "OS--DKRY5CJQX4BIP" /\
  exists prefix random_chars,
    "OS--DKRY5CJQX4BIP" = (prefix ++ "--" ++ random_chars)%string /\
    String.length prefix = List.length (split "Outshine School") /\
    Forall (fun c => islower c = false) (list_ascii_of_string prefix) /\
    Forall (fun c => In c (ascii_uppercase ++ digits))
           (list_ascii_of_string random_chars).
Proof.
  split; [reflexivity|]. split; [reflexivity|].
  apply (generate_username_shape "Outshine School" example_draws
           "OS--DKRY5CJQX4BIP").
  - reflexivity.
  - reflexivity.
Defined.

(** ** The user manager *)

Lemma dict_get_app k d1 d2 :
  dict_get k (d1 ++ d2)
  = match dict_get k d1 with
    | Some v => Some v
    | None => dict_get k d2
    end.
Proof.
  induction d1 as [|[k' v] d1 IH]; simpl; [reflexivity|].
  destruct (String.eqb k' k); [reflexivity|exact IH].
Qed.

(** [setdefault] keeps a value the caller gave and supplies the default
    otherwise; other keys are not affected. *)
Lemma dict_get_setdefault k k' v d :
  dict_get k (setdefault k' v d)
  = match dict_get k d with
    | Some x => Some x
    | None => if String.eqb k' k then Some v else None
    end.
Proof.
  unfold setdefault. destruct (dict_get k' d) as [x|] eqn:Hk'.
  - destruct (dict_get k d) as [y|] eqn:Hk; [reflexivity|].
    destruct (String.eqb_spec k' k) as [->|_]; [congruence|reflexivity].
  - rewrite dict_get_app. simpl. reflexivity.
Qed.

Section ManagerProperties.

Variable school_name : option string.
Variable rnd : RandomSource.
Variable normalize_email : string -> string.
Variable validate_email : string -> bool.
Variable make_password : string -> string.
Variable NewUser : Type.
Variable save_user : string -> string -> kwargs -> string -> Outcome NewUser.

(** When [_create_user] returns a user. *)
Lemma _create_user_returns_iff email password extra_fields user :
  (_create_user school_name rnd normalize_email validate_email
    make_password NewUser save_user)
    email password extra_fields = Returns user <->
  email <> EmptyString /\
  exists pw username,
    password = Some pw /\ pw <> EmptyString /\
    generate_username school_name rnd = Returns username /\
    validate_email (normalize_email email) = true /\
    save_user username (normalize_email email) extra_fields (make_password pw)
    = Returns user.
Proof.
  unfold _create_user, validate_email_address.
  destruct (String.eqb_spec email EmptyString) as [->|Hemail].
  { split; [discriminate|]. intros [H _]. congruence. }
  destruct password as [[|c pw]|].
  - split; [discriminate|]. intros (_ & pw & username & H & Hpw & _). congruence.
  - destruct (generate_username school_name rnd) as [username|e]; simpl.
    + destruct (validate_email (normalize_email email)); simpl.
      * split.
        -- intros Hsave. split; [exact Hemail|].
           exists (String c pw), username.
           repeat split; try reflexivity; [discriminate|exact Hsave].
        -- intros (_ & pw' & username' & Hpw & _ & Huser & _ & Hsave).
           injection Hpw as <-. injection Huser as <-. exact Hsave.
      * split; [discriminate|].
        intros (_ & pw' & username' & _ & _ & _ & Hvalid & _).
        discriminate Hvalid.
    + split; [discriminate|].
      intros (_ & pw' & username' & _ & _ & Huser & _). discriminate Huser.
  - split; [discriminate|]. intros (_ & pw & username & H & _). discriminate H.
Qed.

(** X14: [create_user] and [create_superuser] called without a
    password (the default [None]) or with an empty one never create a
    user: both raise [ValueError], whatever the other arguments. *)
Theorem create_user_requires_password email password extra_fields :
  password = None \/ password = Some EmptyString ->
  (exists message,
     (create_user school_name rnd normalize_email validate_email
    make_password NewUser save_user)
    email password extra_fields = Raises (ValueError message)) /\
  (exists message,
     (create_superuser school_name rnd normalize_email validate_email
    make_password NewUser save_user)
    email password extra_fields
     = Raises (ValueError message)).
Proof.
  intros Hpw.
  assert (Hbase : forall fields, exists message,
             (_create_user school_name rnd normalize_email validate_email
    make_password NewUser save_user)
    email password fields = Raises (ValueError message)).
  { intros fields. unfold _create_user.
    destruct (String.eqb email EmptyString); [eexists; reflexivity|].
    destruct Hpw as [-> | ->]; eexists; reflexivity. }
  split.
  - apply Hbase.
  - unfold create_superuser.
    destruct (negb (is_True _)); [eexists; reflexivity|].
    destruct (negb (is_True _)); [eexists; reflexivity|].
    apply Hbase.
Qed.

(** X15: [create_superuser] returns a user exactly when the caller gave
    no [is_staff] and no [is_superuser] or gave the boolean [True] for
    them, the e-mail and the password are non-empty, [SCHOOL_NAME]
    yields a username, the normalised e-mail passes validation, and
    saving the user, with the flags the caller left out set to [True],
    returns that user. *)
Theorem create_superuser_returns_iff email password extra_fields user :
  (create_superuser school_name rnd normalize_email validate_email
    make_password NewUser save_user)
    email password extra_fields = Returns user <->
  (dict_get "is_staff" extra_fields = None \/
   dict_get "is_staff" extra_fields = Some (PyBool true)) /\
  (dict_get "is_superuser" extra_fields = None \/
   dict_get "is_superuser" extra_fields = Some (PyBool true)) /\
  email <> EmptyString /\
  exists pw username,
    password = Some pw /\ pw <> EmptyString /\
    generate_username school_name rnd = Returns username /\
    validate_email (normalize_email email) = true /\
    save_user username (normalize_email email)
      (setdefault "is_superuser" (PyBool true)
         (setdefault "is_staff" (PyBool true) extra_fields))
      (make_password pw)
    = Returns user.
Proof.
  unfold create_superuser.
  set (fields := setdefault "is_superuser" (PyBool true)
                   (setdefault "is_staff" (PyBool true) extra_fields)).
  assert (Hstaff : dict_get "is_staff" fields
                   = match dict_get "is_staff" extra_fields with
                     | Some x => Some x
                     | None => Some (PyBool true)
                     end).
  { unfold fields. rewrite !dict_get_setdefault. simpl.
    destruct (dict_get "is_staff" extra_fields); reflexivity. }
  assert (Hsuper : dict_get "is_superuser" fields
                   = match dict_get "is_superuser" extra_fields with
                     | Some x => Some x
                     | None => Some (PyBool true)
                     end).
  { unfold fields. rewrite !dict_get_setdefault. simpl.
    destruct (dict_get "is_superuser" extra_fields); reflexivity. }
  split.
  - intros Hres.
    destruct (is_True (dict_get "is_staff" fields)) eqn:Hs;
      [|discriminate Hres].
    destruct (is_True (dict_get "is_superuser" fields)) eqn:Hu;
      [|discriminate Hres].
    simpl in Hres.
    apply _create_user_returns_iff in Hres.
    destruct Hres as (Hemail & pw & username & Hrest).
    assert (Hs' : dict_get "is_staff" fields = Some (PyBool true)).
    { destruct (dict_get "is_staff" fields) as [[|[|]| |]|];
        try discriminate Hs; reflexivity. }
    assert (Hu' : dict_get "is_superuser" fields = Some (PyBool true)).
    { destruct (dict_get "is_superuser" fields) as [[|[|]| |]|];
        try discriminate Hu; reflexivity. }
    split.
    { rewrite Hs' in Hstaff.
      destruct (dict_get "is_staff" extra_fields); [right|left]; congruence. }
    split.
    { rewrite Hu' in Hsuper.
      destruct (dict_get "is_superuser" extra_fields); [right|left]; congruence. }
    split; [exact Hemail|].
    exists pw, username. exact Hrest.
  - intros (Hs & Hu & Hemail & pw & username & Hrest).
    assert (Hs' : dict_get "is_staff" fields = Some (PyBool true)).
    { rewrite Hstaff. destruct Hs as [-> | ->]; reflexivity. }
    assert (Hu' : dict_get "is_superuser" fields = Some (PyBool true)).
    { rewrite Hsuper. destruct Hu as [-> | ->]; reflexivity. }
    rewrite Hs', Hu'. simpl.
    apply _create_user_returns_iff. split; [exact Hemail|].
    exists pw, username. exact Hrest.
Qed.

(** X16: a caller-given [is_staff] that is not the boolean [True]
    (also the integer 1 or [None]) makes [create_superuser] raise its
    [ValueError] before the e-mail and the password are looked at. *)
Theorem create_superuser_rejects_is_staff email password extra_fields value :
  dict_get "is_staff" extra_fields = Some value ->
  value <> PyBool true ->
  (create_superuser school_name rnd normalize_email validate_email
    make_password NewUser save_user)
    email password extra_fields
  = Raises (ValueError "Superuser must have is_staff=True.").
Proof.
  intros Hget Hvalue. unfold create_superuser.
  rewrite !dict_get_setdefault, Hget. simpl.
  destruct value as [|[|]| |]; try reflexivity. congruence.
Qed.

(** X17: [create_user] fills in [False] for the flags the caller left
    out only: when it returns a user, the user was saved with the
    caller's own [is_staff] and [is_superuser] where given, and every
    other keyword argument as given. *)
Theorem create_user_keeps_caller_flags email password extra_fields user :
  (create_user school_name rnd normalize_email validate_email
    make_password NewUser save_user)
    email password extra_fields = Returns user ->
  exists username hashed fields,
    save_user username (normalize_email email) fields hashed = Returns user /\
    dict_get "is_staff" fields
    = Some (match dict_get "is_staff" extra_fields with
            | Some value => value
            | None => PyBool false
            end) /\
    dict_get "is_superuser" fields
    = Some (match dict_get "is_superuser" extra_fields with
            | Some value => value
            | None => PyBool false
            end) /\
    forall key value,
      dict_get key extra_fields = Some value -> dict_get key fields = Some value.
Proof.
  unfold create_user. intros Hres.
  apply _create_user_returns_iff in Hres.
  destruct Hres as (_ & pw & username & _ & _ & _ & _ & Hsave).
  eexists. eexists. eexists. split; [exact Hsave|].
  split.
  { rewrite !dict_get_setdefault. simpl.
    destruct (dict_get "is_staff" extra_fields); reflexivity. }
  split.
  { rewrite !dict_get_setdefault. simpl.
    destruct (dict_get "is_superuser" extra_fields); reflexivity. }
  intros key value Hget. rewrite !dict_get_setdefault, Hget. reflexivity.
Qed.

End ManagerProperties.

(** X18: with [SCHOOL_NAME] unset neither [create_user] nor
    [create_superuser] ever returns a user, whatever the arguments and
    the framework functions. *)
Theorem no_user_without_school_name rnd normalize_email validate_email
  make_password NewUser save_user email password extra_fields user :
  create_user None rnd normalize_email validate_email make_password NewUser
    save_user email password extra_fields <> Returns user /\
  create_superuser None rnd normalize_email validate_email make_password
    NewUser save_user email password extra_fields <> Returns user.
Proof.
  assert (Hbase : forall fields,
             _create_user None rnd normalize_email validate_email
               make_password NewUser save_user email password fields
             <> Returns user).
  { intros fields Hres. apply _create_user_returns_iff in Hres.
    destruct Hres as (_ & pw & username & _ & _ & Huser & _).
    discriminate Huser. }
  split.
  - apply Hbase.
  - unfold create_superuser.
    destruct (negb (is_True _)); [discriminate|].
    destruct (negb (is_True _)); [discriminate|].
    apply Hbase.
Qed.

Lemma create_user_requires_password_witness :
  ((None : option string) = None \/ (None : option string) = Some EmptyString) /\
  exists message,
    create_user (Some "Outshine School") example_draws (fun e => e)
      example_validate_email (fun p => p) _ example_save_user
      "head@school.example" None []
    = Raises (ValueError message).
Proof.
  split; [left; reflexivity|].
  apply (create_user_requires_password (Some "Outshine School") example_draws
           (fun e => e) example_validate_email (fun p => p) _
           example_save_user "head@school.example" None []).
  left. reflexivity.
Defined.

Lemma create_superuser_rejects_is_staff_witness :
  dict_get "is_staff" [("is_staff", PyInt 1)] = Some (PyInt 1) /\
  PyInt 1 <> PyBool true /\
  create_superuser (Some "Outshine School") example_draws (fun e => e)
    example_validate_email (fun p => p) _ example_save_user
    EmptyString None [("is_staff", PyInt 1)]
  = Raises (ValueError "Superuser must have is_staff=True.").
Proof.
  split; [reflexivity|]. split; [discriminate|].
  apply (create_superuser_rejects_is_staff (Some "Outshine School")
           example_draws (fun e => e) example_validate_email (fun p => p) _
           example_save_user EmptyString None [("is_staff", PyInt 1)]
           (PyInt 1)).
  - reflexivity.
  - discriminate.
Defined.

Lemma create_user_keeps_caller_flags_witness :
  create_user (Some "Outshine School") example_draws (fun e => e)
    example_validate_email (fun p => p) _ example_save_user
    "head@school.example" (Some "secret") [("is_superuser", PyBool true)]
  = Returns ("OS--DKRY5CJQX4BIP", "head@school.example",
             [("is_superuser", PyBool true); ("is_staff", PyBool false)],
             "secret") /\
  exists username hashed fields,
    example_save_user username "head@school.example" fields hashed
    = Returns ("OS--DKRY5CJQX4BIP", "head@school.example",
               [("is_superuser", PyBool true); ("is_staff", PyBool false)],
               "secret") /\
    dict_get "is_superuser" fields = Some (PyBool true).
Proof.
  split; [reflexivity|].
  destruct (create_user_keeps_caller_flags (Some "Outshine School")
              example_draws (fun e => e) example_validate_email (fun p => p) _
              example_save_user "head@school.example" (Some "secret")
              [("is_superuser", PyBool true)] _ eq_refl)
    as (username & hashed & fields & Hsave & _ & Hsuper & _).
  exists username, hashed, fields. split; [exact Hsave|exact Hsuper].
Defined.
